(** * Device-code flow: the polling handlers of [web_app.py] and [cli.py]

    A shallow embedding of the session store ([load_sessions],
    [save_sessions]), of the two calls to the identity provider
    ([get_device_code], [poll_for_token]) and of the two Flask views that
    drive them ([api_device_code], [api_poll_token]), followed by the
    properties of the polling state machine and of the session lifecycle. *)

From stdpp Require Import base option list gmap strings.
From Stdlib Require Import ZArith QArith Qround Qabs Qpower Lia Sorted OrdersEx.

Local Set Warnings "-register-all".
Local Open Scope string_scope.
Local Open Scope Z_scope.

(** ** Values *)

(** What [resp.json()] and [request.get_json()] hand to the program: a
    Python value built from JSON.  A dictionary is kept as the list of its
    items and a key is read at its first binding; a number, integer or
    float, is read as a rational; Python's [None] is [JNull]. *)
Inductive json : Type :=
| JNull
| JBool (b : bool)
| JNum (q : Q)
| JStr (s : string)
| JArr (l : list json)
| JObj (o : list (string * json)).

Fixpoint dict_get (k : string) (o : list (string * json)) : option json :=
  match o with
  | [] => None
  | (k', v) :: o' => if String.eqb k k' then Some v else dict_get k o'
  end.

(** Python truth value, as tested by [if token:] and [if not client_id:]. *)
Definition truthy (v : json) : bool :=
  match v with
  | JNull => false
  | JBool b => b
  | JNum q => negb (Qeq_bool q 0)
  | JStr s => negb (String.eqb s "")
  | JArr l => match l with [] => false | _ :: _ => true end
  | JObj o => match o with [] => false | _ :: _ => true end
  end.

(** [x > y] on time stamps. *)
Definition py_gt (x y : Q) : bool :=
  (Qnum y * QDen x <? Qnum x * QDen y)%Z.

(** ** The provider seen from the program *)

Record request : Type := Request {
  url : string;
  data : list (string * json);
  headers : list (string * string)
}.

(** [parsed] is what [resp.json()] returns, [None] when the body is not
    JSON and the call raises. *)
Record response : Type := Response {
  status_code : Z;
  text : string;
  parsed : option json
}.

(** The answer to one [requests.post]: a response, or an exception raised
    before any response was read (connection refused, DNS, TLS, ...). *)
Inductive net_result : Type :=
| Sent (r : response)
| Failed (msg : string).

(** ** Exceptions *)

Inductive exn : Type :=
| RequestException (msg : string)
| HTTPError (r : response)
| JSONDecodeError (r : response)
| AttributeError
| KeyError (k : string)
| TypeError
| ValueError
| OverflowError
| OAuthError (body : json)        (* Exception(f"OAuth error: {resp.json()}") *)
| UnexpectedError (t : string)    (* Exception(f"Unexpected error: {resp.text}") *)
| SystemExit (code : Z).

(** [except Exception] catches every exception above but [SystemExit]. *)
Definition is_Exception (e : exn) : bool :=
  match e with SystemExit _ => false | _ => true end.

Inductive result (A : Type) : Type :=
| Ok (a : A)
| Raise (e : exn).
Arguments Ok {A} a.
Arguments Raise {A} e.

(** ** Sessions and the world *)

Record session_data : Type := SessionData {
  client_id : json;
  device_code : json;
  interval : json;
  expires_at : Q
}.

(** The machine the program runs on.  [float_add x y] is the double its
    interpreter computes for [x + y], [x] a float and [y] an integer or a
    float: the sum rounded to a double, or [None] when [y] is an integer
    too large to be made a float and the addition raises [OverflowError].
    [sleep_fits d] tells whether the duration [d] fits the C time type
    that [time.sleep] converts it to; when it does not, the call raises
    [OverflowError]. *)
Record machine : Type := Machine {
  float_add : Q -> Q -> option Q;
  sleep_fits : Q -> bool
}.

(** [session_file] is the content of [active_sessions.pkl], [None] while
    the file does not exist; [net_log] lists the requests posted so far,
    oldest first; [slept] lists the durations passed to [time.sleep];
    [the_machine] is the machine all of this happens on. *)
Record world : Type := World {
  session_file : option (gmap string session_data);
  net_log : list request;
  slept : list Q;
  the_machine : machine
}.

(** What the program cannot decide: the clock, the provider's answer to a
    request given the requests made before it, and the identifier drawn
    by [uuid.uuid4()]. *)
Record env : Type := Env {
  time_time : Q;
  provider : list request -> request -> net_result;
  uuid4 : string
}.

(** The state a view runs in: the world and the view's local variable
    [active_sessions], a dictionary that [del] and item assignment
    update in place. *)
Record state : Type := State {
  the_world : world;
  active_sessions : gmap string session_data
}.

(** ** A state and exception monad

    A computation reads and updates the state and either returns a value
    or raises; what was written before an exception stays written. *)
Definition M (A : Type) : Type := state -> result A * state.

Definition ret {A} (a : A) : M A := fun s => (Ok a, s).

Definition raise {A} (e : exn) : M A := fun s => (Raise e, s).

Definition bind {A B} (m : M A) (f : A -> M B) : M B :=
  fun s => match m s with
           | (Ok a, s') => f a s'
           | (Raise e, s') => (Raise e, s')
           end.

(** [try: body / except Exception as e: handler e]. *)
Definition try_except {A} (body : M A) (handler : exn -> M A) : M A :=
  fun s => match body s with
           | (Ok a, s') => (Ok a, s')
           | (Raise e, s') =>
               if is_Exception e then handler e s' else (Raise e, s')
           end.

Definition lift {A} (r : result A) : M A := fun s => (r, s).

#[export] Instance M_ret : MRet M := @ret.
#[export] Instance M_bind : MBind M := fun A B f m => bind m f.

(** ** Primitive operations *)

Definition log_request (q : request) (w : world) : world :=
  World (session_file w) (net_log w ++ [q]) (slept w) (the_machine w).

(** [requests.post(url, data=data, headers=headers)]. *)
Definition requests_post (e : env) (q : request) : M response :=
  fun s =>
    let s' := State (log_request q (the_world s)) (active_sessions s) in
    match provider e (net_log (the_world s)) q with
    | Sent r => (Ok r, s')
    | Failed msg => (Raise (RequestException msg), s')
    end.

(** [resp.json()]. *)
Definition response_json (r : response) : M json :=
  match parsed r with
  | Some j => ret j
  | None => raise (JSONDecodeError r)
  end.

(** [resp.raise_for_status()] of the requests library: an [HTTPError]
    holding the response for a 4xx or 5xx status, nothing otherwise. *)
Definition raise_for_status (r : response) : M unit :=
  if (400 <=? status_code r) && (status_code r <? 600)
  then raise (HTTPError r)
  else ret tt.

(** [v.get(k)] and [v.get(k, d)]: only a dictionary has the method. *)
Definition py_get_default (v : json) (k : string) (d : json) : result json :=
  match v with
  | JObj o => Ok (default d (dict_get k o))
  | _ => Raise AttributeError
  end.

Definition py_get (v : json) (k : string) : result json :=
  py_get_default v k JNull.

(** [v[k]] with a string key. *)
Definition py_index (v : json) (k : string) : result json :=
  match v with
  | JObj o => match dict_get k o with
              | Some x => Ok x
              | None => Raise (KeyError k)
              end
  | _ => Raise TypeError
  end.

(** [time.sleep(v)]. *)
Definition record_sleep (d : Q) : M unit :=
  fun s =>
    let w := the_world s in
    (Ok tt, State (World (session_file w) (net_log w) (slept w ++ [d])
                     (the_machine w))
                  (active_sessions s)).

Definition time_sleep (v : json) : M unit :=
  fun s =>
    match v with
    | JNum q =>
        if sleep_fits (the_machine (the_world s)) q then
          if py_gt 0 q then raise ValueError s else record_sleep q s
        else raise OverflowError s
    | JBool b => record_sleep (if b then 1 else 0)%Q s
    | _ => raise TypeError s
    end.

(** The local dictionary [active_sessions]. *)
Definition set_active (d : gmap string session_data) : M unit :=
  fun s => (Ok tt, State (the_world s) d).

Definition get_active : M (gmap string session_data) :=
  fun s => (Ok (active_sessions s), s).

(** [del active_sessions[k]]. *)
Definition del_active (k : string) : M unit :=
  fun s =>
    match active_sessions s !! k with
    | Some _ => (Ok tt, State (the_world s) (delete k (active_sessions s)))
    | None => (Raise (KeyError k), s)
    end.

(** [active_sessions[k] = v]. *)
Definition setitem_active (k : string) (v : session_data) : M unit :=
  fun s => (Ok tt, State (the_world s) (<[k := v]> (active_sessions s))).

(** ** The session store *)

Definition load_sessions : M (gmap string session_data) :=
  fun s => (Ok (default ∅ (session_file (the_world s))), s).

Definition save_sessions (sessions : gmap string session_data) : M unit :=
  fun s =>
    let w := the_world s in
    (Ok tt, State (World (Some sessions) (net_log w) (slept w)
                     (the_machine w))
                  (active_sessions s)).

(** A view runs on the world with its local variable not yet bound; the
    local variable is gone when the view returns. *)
Definition run {A} (m : M A) (w : world) : result A * world :=
  match m (State w ∅) with
  | (r, s) => (r, the_world s)
  end.

(** ** What a view answers *)

(** The text of an error answer: a literal of the program, or [str(e)]. *)
Inductive message : Type :=
| Literal (s : string)
| StrOf (e : exn).

(** The dictionaries passed to [jsonify]. *)
Inductive payload : Type :=
| ErrorBody (error : message)
| StatusPending
| TokenBody (access_token refresh_token id_token expires_in : json)
| DeviceBody (session_id : string) (verification_uri user_code msg : json).

(** A payload and the HTTP status it is sent with; a view that raises
    leaves the exception to Flask. *)
Definition flask_response : Type := payload * Z.

Definition DEVICE_CODE_URL : string :=
  "https://login.microsoftonline.com/organizations/oauth2/v2.0/devicecode".
Definition TOKEN_URL : string :=
  "https://login.microsoftonline.com/organizations/oauth2/v2.0/token".
Definition DEFAULT_SCOPE : string :=
  "https://graph.microsoft.com/.default offline_access openid".

Definition form_headers : list (string * string) :=
  [("Content-Type", "application/x-www-form-urlencoded")].

Definition device_code_request (client_id scope : json) : request :=
  Request DEVICE_CODE_URL [("client_id", client_id); ("scope", scope)]
          form_headers.

Definition token_request (client_id device_code : json) : request :=
  Request TOKEN_URL
          [("grant_type", JStr "urn:ietf:params:oauth:grant-type:device_code");
           ("client_id", client_id);
           ("device_code", device_code)]
          form_headers.

(** [error in ("authorization_pending", "slow_down")]. *)
Definition in_pending_errors (error : json) : bool :=
  match error with
  | JStr s => String.eqb s "authorization_pending" || String.eqb s "slow_down"
  | _ => false
  end.

(** [now + v] for the float [now], on the machine [m]. *)
Definition float_plus (m : machine) (now : Q) (v : json) : result Q :=
  match v with
  | JNum q =>
      match float_add m now q with
      | Some r => Ok r
      | None => Raise OverflowError
      end
  | JBool b =>
      match float_add m now (if b then 1 else 0)%Q with
      | Some r => Ok r
      | None => Raise OverflowError
      end
  | _ => Raise TypeError
  end.

(** [time.time() + v]. *)
Definition py_add_time (now : Q) (v : json) : M Q :=
  fun s => (float_plus (the_machine (the_world s)) now v, s).

(** ** web_app.py *)
Module WebApp.

Definition get_device_code (e : env) (client_id scope : json) : M json :=
  resp ← requests_post e (device_code_request client_id scope);
  raise_for_status resp;;
  response_json resp.

(** One redemption attempt; [None] (here [JNull]) means still waiting. *)
Definition poll_for_token (e : env) (client_id device_code interval : json)
  : M json :=
  resp ← requests_post e (token_request client_id device_code);
  if status_code resp =? 200 then
    response_json resp
  else if status_code resp =? 400 then
    body ← response_json resp;
    error ← lift (py_get body "error");
    if in_pending_errors error then
      ret JNull
    else
      body' ← response_json resp;
      raise (OAuthError body')
  else
    raise (UnexpectedError (text resp)).

Definition api_device_code (e : env) (data : json) : M flask_response :=
  client_id ← lift (py_get data "client_id");
  scope ← lift (py_get_default data "scope" (JStr DEFAULT_SCOPE));
  if negb (truthy client_id) then
    ret (ErrorBody (Literal "Client ID is required"), 400)
  else
    try_except
      (device ← get_device_code e client_id scope;
       let session_id := uuid4 e in
       sessions ← load_sessions;
       set_active sessions;;
       device_code ← lift (py_index device "device_code");
       interval ← lift (py_get_default device "interval" (JNum 5));
       expires_in ← lift (py_get_default device "expires_in" (JNum 900));
       expires_at ← py_add_time (time_time e) expires_in;
       setitem_active session_id
         (SessionData client_id device_code interval expires_at);;
       sessions ← get_active;
       save_sessions sessions;;
       verification_uri ← lift (py_index device "verification_uri");
       user_code ← lift (py_index device "user_code");
       msg ← lift (py_index device "message");
       ret (DeviceBody session_id verification_uri user_code msg, 200))
      (fun ex => ret (ErrorBody (StrOf ex), 500)).

Definition api_poll_token (e : env) (session_id : string) : M flask_response :=
  sessions ← load_sessions;
  set_active sessions;;
  sessions ← get_active;
  match sessions !! session_id with
  | None => ret (ErrorBody (Literal "Invalid session ID"), 404)
  | Some session_data =>
      if py_gt (time_time e) (expires_at session_data) then
        del_active session_id;;
        sessions ← get_active;
        save_sessions sessions;;
        ret (ErrorBody (Literal "Session expired"), 408)
      else
        try_except
          (token ← poll_for_token e (client_id session_data)
                     (device_code session_data) (interval session_data);
           if truthy token then
             del_active session_id;;
             sessions ← get_active;
             save_sessions sessions;;
             access_token ← lift (py_index token "access_token");
             refresh_token ← lift (py_get token "refresh_token");
             id_token ← lift (py_get token "id_token");
             expires_in ← lift (py_get token "expires_in");
             ret (TokenBody access_token refresh_token id_token expires_in,
                  200)
           else
             ret (StatusPending, 200))
          (fun ex =>
             del_active session_id;;
             sessions ← get_active;
             save_sessions sessions;;
             ret (ErrorBody (StrOf ex), 500))
  end.

End WebApp.

(** ** cli.py *)
Module Cli.

Definition get_device_code (e : env) (client_id scope : json) : M json :=
  resp ← requests_post e (device_code_request client_id scope);
  raise_for_status resp;;
  response_json resp.

(** The blocking loop, run for at most [fuel] attempts; [None] when the
    attempts are used up before the loop is left.  What the loop prints is
    not kept. *)
Fixpoint poll_for_token (fuel : nat) (e : env)
    (client_id device_code interval : json) : M (option json) :=
  match fuel with
  | O => ret None
  | S fuel' =>
      resp ← requests_post e (token_request client_id device_code);
      if status_code resp =? 200 then
        token ← response_json resp;
        ret (Some token)
      else if status_code resp =? 400 then
        body ← response_json resp;
        error ← lift (py_get body "error");
        if in_pending_errors error then
          time_sleep interval;;
          poll_for_token fuel' e client_id device_code interval
        else
          response_json resp;;
          raise (SystemExit 1)
      else
        raise (SystemExit 1)
  end.

End Cli.

(** ** The store under two views at once

    The web server answers each request on a thread of its own, and
    neither view takes a lock: each reads the whole file with
    [load_sessions], updates its own copy and writes the whole file back
    with [save_sessions].  Below, a view is reduced to what it does to the
    store, the two calls are taken as one step each, and a schedule says
    which of two views takes the next step. *)
Module Interleaving.

(** [api_device_code] stores a new session; [api_poll_token], on a
    terminal outcome, deletes the session it was asked about. *)
Inductive mutation : Type :=
| Create (session_id : string) (v : session_data)
| Delete (session_id : string).

Definition key (m : mutation) : string :=
  match m with
  | Create k _ => k
  | Delete k => k
  end.

(** The update of the local copy between the two calls. *)
Definition update (m : mutation) (d : gmap string session_data)
  : gmap string session_data :=
  match m with
  | Create k v => <[k := v]> d
  | Delete k => delete k d
  end.

(** Where a view stands: before [load_sessions], between the two calls
    with its local copy, or returned. *)
Inductive pc : Type :=
| Ready
| Loaded (d : gmap string session_data)
| Done.

(** One step of a view on the file.  A poll that does not find its
    session returns 404 at once and writes nothing. *)
Definition step (m : mutation) (p : pc) (f : option (gmap string session_data))
  : pc * option (gmap string session_data) :=
  match p with
  | Ready =>
      let d := default ∅ f in
      match m with
      | Create _ _ => (Loaded d, f)
      | Delete k => match d !! k with
                    | Some _ => (Loaded d, f)
                    | None => (Done, f)
                    end
      end
  | Loaded d => (Done, Some (update m d))
  | Done => (Done, f)
  end.

(** A schedule lists which view steps next: [false] the first, [true]
    the second. *)
Fixpoint interleave (m1 m2 : mutation) (sched : list bool) (p1 p2 : pc)
    (f : option (gmap string session_data))
  : pc * pc * option (gmap string session_data) :=
  match sched with
  | [] => (p1, p2, f)
  | false :: sched' =>
      let '(p1', f') := step m1 p1 f in interleave m1 m2 sched' p1' p2 f'
  | true :: sched' =>
      let '(p2', f') := step m2 p2 f in interleave m1 m2 sched' p1 p2' f'
  end.

(** The first view from start to end, then the second. *)
Definition serial (m1 m2 : mutation) (f : option (gmap string session_data))
  : pc * pc * option (gmap string session_data) :=
  interleave m1 m2 [false; false; true; true] Ready Ready f.

(** One view running with no other. *)
Definition alone (m : mutation) (f : option (gmap string session_data))
  : option (gmap string session_data) :=
  let '(p, f1) := step m Ready f in snd (step m p f1).

(** Both views have returned. *)
Definition finished
    (x : pc * pc * option (gmap string session_data)) : Prop :=
  x.1.1 = Done /\ x.1.2 = Done.

(** The sessions in the file at the end. *)
Definition final (x : pc * pc * option (gmap string session_data))
  : gmap string session_data :=
  default ∅ x.2.

(** What is to be kept while two polls delete the same session of a
    store that held [d0]: a local copy differs from [d0] at most at
    [k], the file holds [d0] with or without [k], and without it as soon
    as one of the two has returned. *)
Definition copy_ok (k : string) (d0 : gmap string session_data) (p : pc)
  : Prop :=
  match p with
  | Loaded d => delete k d = delete k d0
  | _ => True
  end.

Definition deleting (k : string) (d0 : gmap string session_data)
    (p1 p2 : pc) (f : option (gmap string session_data)) : Prop :=
  copy_ok k d0 p1 /\ copy_ok k d0 p2 /\
  (default ∅ f = d0 \/ default ∅ f = delete k d0) /\
  (p1 = Done \/ p2 = Done -> default ∅ f = delete k d0).

End Interleaving.

(** ** Vocabulary of the statements *)

(** The sessions a view finds in the store. *)
Definition stored (w : world) : gmap string session_data :=
  default ∅ (session_file w).

(** The world after [session_id] was deleted and the store written. *)
Definition forget (session_id : string) (w : world) : world :=
  World (Some (delete session_id (stored w))) (net_log w) (slept w)
    (the_machine w).

(** The answers of the poll view. *)
Definition not_found : result flask_response :=
  Ok (ErrorBody (Literal "Invalid session ID"), 404).
Definition expired : result flask_response :=
  Ok (ErrorBody (Literal "Session expired"), 408).
Definition pending : result flask_response :=
  Ok (StatusPending, 200).
Definition failed (ex : exn) : result flask_response :=
  Ok (ErrorBody (StrOf ex), 500).

(** An answer that ends the flow: anything but "pending" and "no such
    session", an exception left to Flask included. *)
Definition terminal (r : result flask_response) : bool :=
  match r with
  | Ok (StatusPending, _) => false
  | Ok (ErrorBody (Literal "Invalid session ID"), 404) => false
  | _ => true
  end.

(** Closes a case in which a view answers otherwise than assumed. *)
Ltac refuse :=
  try match goal with |- context [is_Exception ?x] => destruct (is_Exception x) end;
  simpl; intros; discriminate.

(** Status classes, and the failure [raise_for_status] produces. *)
Definition is_2xx (r : response) : Prop := 200 <= status_code r < 300.
Definition is_4xx_5xx (r : response) : Prop := 400 <= status_code r < 600.
Definition provider_error (r : response) (out : result json) : Prop :=
  out = Raise (HTTPError r).

(** The request a poll of this session sends. *)
Definition poll_request (sd : session_data) : request :=
  token_request (client_id sd) (device_code sd).

(** The expiry outcome: the view answers 408, the session is gone from
    the store and nothing was sent to the provider. *)
Definition expires (e : env) (session_id : string) (w : world) : Prop :=
  run (WebApp.api_poll_token e session_id) w = (expired, forget session_id w).

(** What the view makes of a token that passed [if token:]. *)
Definition token_answer (session_id : string) (token : json)
  : result flask_response :=
  match token with
  | JObj o =>
      match dict_get "access_token" o with
      | Some a =>
          Ok (TokenBody a (default JNull (dict_get "refresh_token" o))
                (default JNull (dict_get "id_token" o))
                (default JNull (dict_get "expires_in" o)), 200)
      | None => Raise (KeyError session_id)
      end
  | _ => Raise (KeyError session_id)
  end.

Ltac munfold :=
  unfold mbind, M_bind, mret, M_ret, bind, try_except, load_sessions,
    save_sessions, set_active, get_active, del_active, setitem_active,
    requests_post, response_json, raise_for_status, py_add_time, ret, raise,
    lift.

(** The state after a request was posted. *)
Definition posted (q : request) (s : state) : state :=
  State (log_request q (the_world s)) (active_sessions s).

(** ** A machine with IEEE doubles

    A machine for the sample runs: its floats are binary64 numbers, with
    sums rounded to the nearest, ties to even, and its [time.sleep] counts
    nanoseconds in a signed 64-bit integer.  A sum of two floats too large
    for a double, which no reading of a clock gives, is not described. *)
Module Binary64.

(** The integer part of the binary logarithm of a positive rational. *)
Definition ilog2 (a : Q) : Z :=
  let l := Z.log2 (Qnum a) - Z.log2 (Zpos (Qden a)) in
  if Qle_bool (2 ^ l)%Q a then l else l - 1.

(** The nearest integer to a rational that is not negative, the even one
    of two at the same distance. *)
Definition nearest_even (x : Q) : Z :=
  let f := Qfloor x in
  match Qcompare (x - inject_Z f) (1 # 2) with
  | Lt => f
  | Gt => f + 1
  | Eq => if Z.even f then f else f + 1
  end.

(** The double nearest to a rational; [None] past the largest one. *)
Definition round (q : Q) : option Q :=
  if Qeq_bool q 0 then Some 0%Q
  else
    let a := Qabs q in
    let k := Z.max (ilog2 a) (-1022) - 52 in
    let r := (inject_Z (nearest_even (a / 2 ^ k)) * 2 ^ k)%Q in
    if Qle_bool (2 ^ 1024)%Q r then None
    else Some (Qred (if Qle_bool 0 q then r else - r)%Q).

Definition add (x y : Q) : option Q :=
  match round y with
  | Some y' => round (x + y')
  | None => None
  end.

Definition fits_int64_ns (d : Q) : bool :=
  Qle_bool (- 2 ^ 63)%Q (d * 10 ^ 9)%Q
  && negb (Qle_bool (2 ^ 63)%Q (d * 10 ^ 9)%Q).

Definition pc : machine := Machine add fits_int64_ns.

End Binary64.

(** ** Sample inputs *)
Module Sample.

Definition sd : session_data :=
  SessionData (JStr "abc") (JStr "d1") (JNum 5) 100.

(** A store holding the one session ["S"], which expires at time 100. *)
Definition w : world := World (Some {["S" := sd]}) [] [] Binary64.pc.

Definition reply (code : Z) (body : list (string * json)) : response :=
  Response code "" (Some (JObj body)).

Definition token_reply : response := reply 200 [("access_token", JStr "tok")].
Definition pending_reply : response :=
  reply 400 [("error", JStr "authorization_pending")].
Definition slow_down_reply : response := reply 400 [("error", JStr "slow_down")].
Definition not_json_reply : response := Response 400 "<html>" None.
Definition redirect_reply : response := reply 302 [("device_code", JStr "d1")].

(** A provider that gives the same answer to every request. *)
Definition always (now : Q) (a : net_result) : env :=
  Env now (fun _ _ => a) "S2".

(** A provider that answers [first] to the first request and a token to
    every later one. *)
Definition then_token (now : Q) (first : response) : env :=
  Env now (fun log _ => match log with
                        | [] => Sent first
                        | _ :: _ => Sent token_reply
                        end) "S2".

(** The provider of a whole flow: the grant to the first request,
    "authorization_pending" to the second, the token from then on. *)
Definition grant_reply : response :=
  reply 200 [("device_code", JStr "d1"); ("user_code", JStr "U1");
             ("verification_uri", JStr "https://x");
             ("message", JStr "enter U1"); ("interval", JNum 5);
             ("expires_in", JNum 900)].

Definition flow (now : Q) : env :=
  Env now (fun log _ => match log with
                        | [] => Sent grant_reply
                        | [_] => Sent pending_reply
                        | _ => Sent token_reply
                        end) "S".

Definition empty_world : world := World None [] [] Binary64.pc.

End Sample.

(** ** The application catalogue (both programs)

    What Python's [str] does to its text is left to the interpreter: the
    methods the program calls are taken as given. *)
Record str_methods : Type := StrMethods {
  lower : string -> string;            (* s.lower() *)
  strip : string -> string;            (* s.strip() *)
  split : string -> list string;       (* s.split() *)
  first_chars : nat -> string -> string; (* s[:n] *)
  to_int : string -> option Z          (* int(s), None for ValueError *)
}.

(** [needle in hay] on strings. *)
Fixpoint contains (needle hay : string) : bool :=
  if String.prefix needle hay then true
  else match hay with
       | EmptyString => false
       | String _ hay' => contains needle hay'
       end.

Definition nonempty (s : string) : bool := negb (String.eqb s "").

Module Catalog.

Record app : Type := App {
  name : string;
  client_id : string;
  scope : string
}.

Definition TOP_APPS : list app :=
  [App "Microsoft Azure CLI" "04b07795-8ddb-461a-bbee-02f9e1bf7b46"
       DEFAULT_SCOPE;
   App "Microsoft Teams" "1fec8e78-bce4-4aaf-ab1b-5451cc387264"
       DEFAULT_SCOPE;
   App "Microsoft Outlook" "5d661950-3475-41cd-a2c3-d671a3162bc1"
       DEFAULT_SCOPE;
   App "Azure Active Directory PowerShell"
       "1b730954-1685-4b74-9bfd-dac224a7b894" DEFAULT_SCOPE].

(** [MicrosoftApps.csv] as [csv.DictReader] hands it over: no file, or
    the rows read, each a dictionary from column to text, and whether the
    reading then broke off with an exception. *)
Inductive csv_source : Type :=
| Missing
| Read (rows : list (list (string * string))) (broke : bool).

Fixpoint row_get (k : string) (row : list (string * string)) : option string :=
  match row with
  | [] => None
  | (k', v) :: row' => if String.eqb k k' then Some v else row_get k row'
  end.

(** The body of the loop over the rows. *)
Definition load_row (row : list (string * string)) : option app :=
  match row_get "AppId" row, row_get "AppDisplayName" row with
  | Some app_id, Some display_name =>
      if nonempty app_id && nonempty display_name
      then Some (App display_name app_id DEFAULT_SCOPE)
      else None
  | _, _ => None
  end.

(** Both handlers of the [try] only print: the apps appended before an
    exception are returned all the same. *)
Definition load_microsoft_apps (src : csv_source) : list app :=
  match src with
  | Missing => []
  | Read rows _ => omap load_row rows
  end.

Definition search_apps (py : str_methods) (apps : list app) (query : string)
  : list app :=
  let query := lower py query in
  List.filter (fun a => contains query (lower py (name a))) apps.

End Catalog.

(** ** web_app.py: the catalogue routes *)
Module WebApi.

(** [/api/search?q=...]; [None] when the request has no [q]. *)
Definition api_search (py : str_methods) (q : option string)
    (src : Catalog.csv_source) : list Catalog.app :=
  let query := strip py (default "" q) in
  if nonempty query then
    let all_apps := Catalog.load_microsoft_apps src in
    let results := Catalog.search_apps py all_apps query in
    take 50 results
  else [].

(** [scope-map.txt]: an exception on opening it, or the lines read and
    the text of the exception the reading broke off with, if any. *)
Inductive text_source : Type :=
| Unreadable (msg : string)
| Lines (lines : list string) (broke : option string).

(** [sorted(scopes)] for the set [scopes]: the elements once each, in
    increasing order. *)
Fixpoint add_sorted (x : string) (l : list string) : list string :=
  match l with
  | [] => [x]
  | y :: l' =>
      match String_as_OT.compare x y with
      | Lt => x :: l
      | Eq => l
      | Gt => y :: add_sorted x l'
      end
  end.

Definition sorted_set (l : list string) : list string :=
  fold_right add_sorted [] l.

(** What one line adds to the set, if anything. *)
Definition scope_of_line (py : str_methods) (client_id line : string)
  : option string :=
  match split py (strip py line) with
  | scope :: resource :: client :: _ =>
      if String.eqb (lower py client) (lower py client_id) then
        Some (if String.prefix "http" scope || String.prefix "." scope
              then scope else resource)
      else None
  | _ => None
  end.

Inductive scopes_answer : Type :=
| ScopesError (msg : string)          (* {'error': str(e)}, 500 *)
| Scopes (scopes : list string).

Definition api_scopes (py : str_methods) (client_id : string)
    (src : text_source) : scopes_answer :=
  match src with
  | Unreadable msg => ScopesError msg
  | Lines _ (Some msg) => ScopesError msg
  | Lines lines None =>
      Scopes (sorted_set (omap (scope_of_line py client_id) lines))
  end.

End WebApi.

(** ** cli.py: the menus

    A menu reads the lines typed at the terminal one by one; [input()]
    raises [EOFError] when there is none left.  Of what the menus print,
    only the pages of search results are kept. *)
Module Menu.

Inductive outcome (A : Type) : Type :=
| Returned (a : A)
| EOFError
| IndexError.
Arguments Returned {A} a.
Arguments EOFError {A}.
Arguments IndexError {A}.

(** A page as displayed: each app with the number printed before it. *)
Definition screen : Type := list (nat * Catalog.app).

(** What is left to read and what was displayed. *)
Record io : Type := IO {
  unread : list string;
  shown : list screen
}.

Definition display_search_results (results : list Catalog.app)
    (start_idx page_size : nat) : screen :=
  let end_idx := Nat.min (start_idx + page_size) (length results) in
  let page := take (end_idx - start_idx) (drop start_idx results) in
  combine (seq (start_idx + 1) (length page)) page.

(** [results[idx]] under the test [0 <= idx < len(results)]. *)
Definition pick (results : list Catalog.app) (idx : Z)
  : outcome (option Catalog.app) :=
  match results !! Z.to_nat idx with
  | Some a => Returned (Some a)
  | None => IndexError
  end.

Definition in_range (idx : Z) (results : list Catalog.app) : bool :=
  (0 <=? idx) && (idx <? Z.of_nat (length results)).

(** The loop of [paginated_selection], from page [current_page]. *)
Fixpoint paginate (py : str_methods) (results : list Catalog.app)
    (current_page : nat) (inputs : list string) (seen : list screen)
  : outcome (option Catalog.app) * io :=
  let page_size := 10%nat in
  let seen :=
    (seen ++ [display_search_results results (current_page * page_size)
                page_size])%list in
  match inputs with
  | [] => (EOFError, IO [] seen)
  | line :: inputs' =>
      let choice := lower py (strip py line) in
      if String.eqb choice "b" then (Returned None, IO inputs' seen)
      else if String.eqb choice "n" then
        if ((current_page + 1) * page_size <? length results)%nat
        then paginate py results (current_page + 1) inputs' seen
        else paginate py results current_page inputs' seen
      else if String.eqb choice "p" then
        if (0 <? current_page)%nat
        then paginate py results (current_page - 1) inputs' seen
        else paginate py results current_page inputs' seen
      else
        match to_int py choice with
        | Some v =>
            let idx := v - 1 in
            if in_range idx results
            then (pick results idx, IO inputs' seen)
            else paginate py results current_page inputs' seen
        | None => paginate py results current_page inputs' seen
        end
  end.

Definition paginated_selection (py : str_methods)
    (results : list Catalog.app) (inputs : list string) (seen : list screen)
  : outcome (option Catalog.app) * io :=
  paginate py results 0 inputs seen.

Fixpoint select_from_top_apps (py : str_methods) (inputs : list string)
    (seen : list screen) : outcome (option Catalog.app) * io :=
  match inputs with
  | [] => (EOFError, IO [] seen)
  | line :: inputs' =>
      let choice := strip py line in
      if String.eqb (lower py choice) "b" then (Returned None, IO inputs' seen)
      else
        match to_int py choice with
        | Some v =>
            let idx := v - 1 in
            if in_range idx Catalog.TOP_APPS
            then (pick Catalog.TOP_APPS idx, IO inputs' seen)
            else select_from_top_apps py inputs' seen
        | None => select_from_top_apps py inputs' seen
        end
  end.

(** The loop of [search_and_select_app]. *)
Fixpoint search_loop (py : str_methods) (all_apps : list Catalog.app)
    (inputs : list string) (seen : list screen)
  : outcome (option Catalog.app) * io :=
  match inputs with
  | [] => (EOFError, IO [] seen)
  | line :: inputs' =>
      let query := strip py line in
      if String.eqb (lower py query) "b" then (Returned None, IO inputs' seen)
      else if negb (nonempty query) then search_loop py all_apps inputs' seen
      else
        let results := Catalog.search_apps py all_apps query in
        match results with
        | [] => search_loop py all_apps inputs' seen
        | _ :: _ => paginated_selection py results inputs' seen
        end
  end.

Definition search_and_select_app (py : str_methods)
    (all_apps : list Catalog.app) (inputs : list string) (seen : list screen)
  : outcome (option Catalog.app) * io :=
  match all_apps with
  | [] => (Returned None, IO inputs seen)
  | _ :: _ => search_loop py all_apps inputs seen
  end.

Definition get_custom_client_id (py : str_methods) (inputs : list string)
    (seen : list screen) : outcome (option Catalog.app) * io :=
  match inputs with
  | [] => (EOFError, IO [] seen)
  | line :: inputs' =>
      let client_id := strip py line in
      if negb (nonempty client_id) then (Returned None, IO inputs' seen)
      else
        match inputs' with
        | [] => (EOFError, IO [] seen)
        | line2 :: inputs'' =>
            let scope := strip py line2 in
            let scope := if negb (nonempty scope) then DEFAULT_SCOPE
                         else scope in
            (Returned
               (Some (Catalog.App
                        ("Custom App (" ++ first_chars py 8 client_id
                           ++ "...)")%string
                        client_id scope)),
             IO inputs'' seen)
        end
  end.

(** The loop of [interactive_app_selection], the catalogue loaded. *)
Fixpoint selection_loop (py : str_methods) (all_apps : list Catalog.app)
    (inputs : list string) (seen : list screen)
  : outcome (option Catalog.app) * io :=
  match inputs with
  | [] => (EOFError, IO [] seen)
  | line :: inputs' =>
      let choice := lower py (strip py line) in
      if String.eqb choice "q" then (Returned None, IO inputs' seen)
      else if String.eqb choice "1" then select_from_top_apps py inputs' seen
      else if String.eqb choice "2"
      then search_and_select_app py all_apps inputs' seen
      else if String.eqb choice "3" then get_custom_client_id py inputs' seen
      else selection_loop py all_apps inputs' seen
  end.

Definition interactive_app_selection (py : str_methods)
    (src : Catalog.csv_source) (inputs : list string)
  : outcome (option Catalog.app) * io :=
  let all_apps := Catalog.load_microsoft_apps src in
  selection_loop py all_apps inputs [].

End Menu.

(** ** cli.py: the program

    [main] from the selection to the tokens it prints.  The blocking loop
    is given [fuel] attempts.  Of what is printed only the tokens are
    kept. *)
Module CliMain.

(** How a run of [main] ends. *)
Inductive ending : Type :=
| NoSelection                  (* "No application selected. Exiting." *)
| EndOfInput                   (* [EOFError] from [input()] *)
| IndexCrash                   (* [IndexError] from a menu *)
| DeviceCodeError (ex : exn)   (* "Error getting device code" *)
| PollError (ex : exn)         (* "Error polling for token" *)
| Uncaught (ex : exn)          (* [sys.exit], or an exception no handler catches *)
| TokensShown (access_token refresh_token id_token : json)
| StillPolling.                (* the attempts given are used up *)

(** The three [print]s of the tokens. *)
Definition show_tokens (token : json) : ending :=
  match py_index token "access_token" with
  | Raise ex => Uncaught ex
  | Ok access_token =>
      match py_get_default token "refresh_token" (JStr "<none>"),
            py_get_default token "id_token" (JStr "<none>") with
      | Ok refresh_token, Ok id_token =>
          TokensShown access_token refresh_token id_token
      | Raise ex, _ => Uncaught ex
      | _, Raise ex => Uncaught ex
      end
  end.

(** The [try] around the blocking loop: its arguments are evaluated
    inside it. *)
Definition poll_phase (fuel : nat) (e : env) (selected_app : Catalog.app)
    (device : json) (s : state) : ending * state :=
  match py_index device "device_code" with
  | Raise ex => (PollError ex, s)
  | Ok device_code =>
      match py_get_default device "interval" (JNum 5) with
      | Raise ex => (PollError ex, s)
      | Ok interval =>
          match Cli.poll_for_token fuel e
                  (JStr (Catalog.client_id selected_app)) device_code
                  interval s with
          | (Raise ex, s') =>
              (if is_Exception ex then PollError ex else Uncaught ex, s')
          | (Ok None, s') => (StillPolling, s')
          | (Ok (Some token), s') => (show_tokens token, s')
          end
      end
  end.

(** The browser instructions: the three fields of the grant they print. *)
Definition show_instructions (device : json) : result unit :=
  match py_index device "verification_uri" with
  | Raise ex => Raise ex
  | Ok _ =>
      match py_index device "user_code" with
      | Raise ex => Raise ex
      | Ok _ =>
          match py_index device "message" with
          | Raise ex => Raise ex
          | Ok _ => Ok tt
          end
      end
  end.

Definition main (fuel : nat) (py : str_methods) (src : Catalog.csv_source)
    (e : env) (inputs : list string) (w : world)
  : ending * Menu.io * world :=
  match Menu.interactive_app_selection py src inputs with
  | (Menu.EOFError, io) => (EndOfInput, io, w)
  | (Menu.IndexError, io) => (IndexCrash, io, w)
  | (Menu.Returned None, io) => (NoSelection, io, w)
  | (Menu.Returned (Some selected_app), io) =>
      match Cli.get_device_code e (JStr (Catalog.client_id selected_app))
              (JStr (Catalog.scope selected_app)) (State w ∅) with
      | (Raise ex, s) =>
          (if is_Exception ex then DeviceCodeError ex else Uncaught ex,
           io, the_world s)
      | (Ok device, s) =>
          match show_instructions device with
          | Raise ex => (Uncaught ex, io, the_world s)
          | Ok _ =>
              match Menu.unread io with
              | [] => (EndOfInput, Menu.IO [] (Menu.shown io), the_world s)
              | _ :: rest =>
                  let '(end_, s') :=
                    poll_phase fuel e selected_app device s in
                  (end_, Menu.IO rest (Menu.shown io), the_world s')
              end
          end
      end
  end.

End CliMain.

(** ** run.py: the launcher *)
Module Run.

Inductive program : Type :=
| cli_py
| web_app_py.

(** [main]: the programs started, in order, whether the input ended
    before a choice was made, and the lines left unread.  What the
    started program does, an interruption or a failure of it included,
    ends the launcher all the same. *)
Fixpoint main (py : str_methods) (inputs : list string)
  : list program * bool * list string :=
  match inputs with
  | [] => ([], true, [])
  | line :: inputs' =>
      let choice := strip py line in
      if String.eqb choice "1" then ([cli_py], false, inputs')
      else if String.eqb choice "2" then ([web_app_py], false, inputs')
      else if String.eqb choice "3" then ([], false, inputs')
      else main py inputs'
  end.

End Run.

(** ** Further vocabulary and sample inputs *)

(** A provider answer that keeps the flow waiting: 400 with a JSON object
    whose [error] is one of the two waiting errors. *)
Definition waiting (a : net_result) : Prop :=
  exists r o err,
    a = Sent r /\ status_code r = 400 /\ parsed r = Some (JObj o) /\
    dict_get "error" o = Some err /\ in_pending_errors err = true.

(** What the start view reads in its request. *)
Definition requested_client (o : list (string * json)) : json :=
  default JNull (dict_get "client_id" o).
Definition requested_scope (o : list (string * json)) : json :=
  default (JStr DEFAULT_SCOPE) (dict_get "scope" o).

(** The session the start view builds from a grant. *)
Definition granted_session (c : json) (dev : list (string * json))
    (dc : json) (ea : Q) : session_data :=
  SessionData c dc (default (JNum 5) (dict_get "interval" dev)) ea.

(** The world after the start view stored [sd] under [k]. *)
Definition remember (k : string) (sd : session_data) (q : request)
    (w : world) : world :=
  World (Some (<[k := sd]> (stored w))) (net_log w ++ [q]) (slept w)
    (the_machine w).

(** What a menu can end with: the end of the input, "back", or an app
    for which [P] holds. *)
Definition ends_well (P : Catalog.app -> Prop)
    (o : Menu.outcome (option Catalog.app)) : Prop :=
  match o with
  | Menu.Returned (Some a) => P a
  | Menu.Returned None => True
  | Menu.EOFError => True
  | Menu.IndexError => False
  end.

(** A page that is fit to be shown for [results]: not empty, of at most
    ten entries, each app under its position in the results counted
    from 1. *)
Definition fit_page (results : list Catalog.app) (scr : Menu.screen) : Prop :=
  (0 < length scr <= 10)%nat /\
  forall i a, (i, a) ∈ scr -> (1 <= i)%nat /\ results !! (i - 1)%nat = Some a.

(** The methods of [str] on plain lower-case ASCII without blanks, for
    the sample runs: only the numbers 1 to 3 are read as integers. *)
Definition plain : str_methods :=
  StrMethods (fun s => s) (fun s => s) (fun s => [s])
    (fun n s => String.substring 0 n s)
    (fun s => if String.eqb s "1" then Some 1
              else if String.eqb s "2" then Some 2
              else if String.eqb s "3" then Some 3
              else None).

(** A line that is none of the launcher's three choices. *)
Definition no_choice (py : str_methods) (line : string) : Prop :=
  strip py line <> "1" /\ strip py line <> "2" /\ strip py line <> "3".

(** What the launcher starts on a choice. *)
Definition started (choice : string) : list Run.program :=
  if String.eqb choice "1" then [Run.cli_py]
  else if String.eqb choice "2" then [Run.web_app_py]
  else [].

(** Closes a case in which the command-line program stops after its
    request for a device code. *)
Ltac sent a :=
  split; [reflexivity|]; right; exists a, JNull, 0%nat; simpl; auto.

(** Closes the frame conditions of a view in one case of its run. *)
Ltac framed :=
  try match goal with
      | |- context [is_Exception ?x] => destruct (is_Exception x)
      end;
  (split; [|split]; simpl; eauto).

Module Cases.

Definition start_request : list (string * json) := [("client_id", JStr "abc")].

Definition grant_without_message : response :=
  Sample.reply 200 [("device_code", JStr "d1"); ("user_code", JStr "U1");
                    ("verification_uri", JStr "https://x")].

Definition denied_reply : response :=
  Sample.reply 400 [("error", JStr "authorization_declined")].

Definition throttled_reply : response :=
  Response 429 "Too Many Requests" None.

Definition null_reply : response := Response 200 "null" (Some JNull).

(** A grant with all its fields, valid for [expires_in] seconds. *)
Definition grant_for (expires_in : json) : response :=
  Sample.reply 200 [("device_code", JStr "d1"); ("user_code", JStr "U1");
                    ("verification_uri", JStr "https://x");
                    ("message", JStr "enter U1");
                    ("expires_in", expires_in)].

(** The doubles written 0.1, 0.2 and 0.30000000000000004. *)
Definition double_0_1 : Q := 3602879701896397 # 36028797018963968.
Definition double_0_2 : Q := 3602879701896397 # 18014398509481984.
Definition double_0_3 : Q := 1351079888211149 # 4503599627370496.

Definition list_reply : response :=
  Response 200 "[1]" (Some (JArr [JNum 1])).

(** A provider that keeps the flow waiting for the first [n] requests
    and hands out the token afterwards. *)
Definition waits (n : nat) : env :=
  Env 0 (fun log _ => if (length log <? n)%nat
                      then Sent Sample.pending_reply
                      else Sent Sample.token_reply) "S".

(** A provider that never stops saying "authorization_pending". *)
Definition stalls : env := Sample.always 0 (Sent Sample.pending_reply).

End Cases.

(** ** Properties *)

Lemma py_gt_true (x y : Q) : py_gt x y = true <-> (y < x)%Q.
Proof. unfold py_gt, Qlt. apply Z.ltb_lt. Qed.

Lemma py_gt_false (x y : Q) : py_gt x y = false <-> (x <= y)%Q.
Proof. unfold py_gt, Qle. rewrite Z.ltb_ge. reflexivity. Qed.

Lemma stored_lookup_delete (session_id : string) (w : world) :
  stored (forget session_id w) !! session_id = None.
Proof. unfold stored, forget. simpl. apply lookup_delete_eq. Qed.

(** Whatever the provider answers, one attempt posts exactly one request
    and touches nothing else. *)
Lemma poll_for_token_state (e : env) (c d i : json) (s : state) :
  snd (WebApp.poll_for_token e c d i s) = posted (token_request c d) s.
Proof.
  unfold WebApp.poll_for_token. munfold.
  destruct (provider e (net_log (the_world s)) (token_request c d)) as [r|msg];
    [|reflexivity].
  destruct (status_code r =? 200).
  { destruct (parsed r); reflexivity. }
  destruct (status_code r =? 400); [|reflexivity].
  destruct (parsed r) as [j|]; [|reflexivity]. simpl.
  destruct (py_get j "error") as [err|ex]; [|reflexivity].
  destruct (in_pending_errors err); reflexivity.
Qed.

(** The web attempt never leaves through [sys.exit]. *)
Lemma poll_for_token_Exception (e : env) (c d i : json) (s : state) (ex : exn) :
  fst (WebApp.poll_for_token e c d i s) = Raise ex -> is_Exception ex = true.
Proof.
  unfold WebApp.poll_for_token. munfold.
  destruct (provider e (net_log (the_world s)) (token_request c d)) as [r|msg];
    [|simpl; intros [= <-]; reflexivity].
  destruct (status_code r =? 200).
  { destruct (parsed r); simpl; intros [= <-]; reflexivity. }
  destruct (status_code r =? 400); [|simpl; intros [= <-]; reflexivity].
  destruct (parsed r) as [j|]; [|simpl; intros [= <-]; reflexivity]. simpl.
  destruct j; simpl; try (intros [= <-]; reflexivity).
  destruct (in_pending_errors _); simpl; [discriminate|].
  intros [= <-]; reflexivity.
Qed.

(** A session that is not stored: 404, and the world is left as it was. *)
Lemma poll_unknown (e : env) (session_id : string) (w : world) :
  stored w !! session_id = None ->
  run (WebApp.api_poll_token e session_id) w = (not_found, w).
Proof.
  intros H. unfold run, WebApp.api_poll_token, stored in *.
  munfold. simpl. rewrite H. reflexivity.
Qed.

(** A stored session whose deadline has passed. *)
Lemma poll_expired (e : env) (session_id : string) (w : world)
    (sd : session_data) :
  stored w !! session_id = Some sd ->
  py_gt (time_time e) (expires_at sd) = true ->
  run (WebApp.api_poll_token e session_id) w = (expired, forget session_id w).
Proof.
  intros H Hgt. unfold run, WebApp.api_poll_token, stored in *.
  munfold. simpl. rewrite H, Hgt. simpl. rewrite H. reflexivity.
Qed.

(** A stored session before its deadline: the view is decided by the one
    redemption attempt. *)
Lemma poll_live (e : env) (session_id : string) (w : world)
    (sd : session_data) :
  stored w !! session_id = Some sd ->
  py_gt (time_time e) (expires_at sd) = false ->
  run (WebApp.api_poll_token e session_id) w =
  let w1 := log_request (poll_request sd) w in
  match fst (WebApp.poll_for_token e (client_id sd) (device_code sd)
               (interval sd) (State w (stored w))) with
  | Raise ex => (failed ex, forget session_id w1)
  | Ok token =>
      if truthy token
      then (token_answer session_id token, forget session_id w1)
      else (pending, w1)
  end.
Proof.
  intros H Hgt.
  pose proof (poll_for_token_state e (client_id sd) (device_code sd)
                (interval sd) (State w (stored w))) as Hs.
  pose proof (poll_for_token_Exception e (client_id sd) (device_code sd)
                (interval sd) (State w (stored w))) as Hex.
  unfold run, WebApp.api_poll_token.
  unfold mbind, M_bind, bind at 1 2 3, load_sessions, set_active, get_active.
  simpl. fold (stored w). rewrite H, Hgt.
  unfold try_except, bind at 1.
  destruct (WebApp.poll_for_token _ _ _ _ _) as [[token|ex] s1].
  - simpl in Hs. subst s1. simpl.
    destruct (truthy token) eqn:Ht; [|reflexivity].
    munfold. simpl. rewrite H. simpl.
    destruct token as [| | | | |o]; simpl; rewrite ?lookup_delete_eq;
      try reflexivity.
    destruct (dict_get "access_token" o); simpl;
      rewrite ?lookup_delete_eq; reflexivity.
  - simpl in Hs. subst s1. simpl. rewrite (Hex ex eq_refl).
    munfold. simpl. rewrite H. reflexivity.
Qed.


(** The answer of one attempt does not depend on the view's local
    dictionary. *)
Lemma poll_for_token_fst (e : env) (c d i : json) (w : world)
    (a a' : gmap string session_data) :
  fst (WebApp.poll_for_token e c d i (State w a)) =
  fst (WebApp.poll_for_token e c d i (State w a')).
Proof.
  unfold WebApp.poll_for_token. munfold. simpl.
  destruct (provider e (net_log w) (token_request c d)) as [r|msg];
    [|reflexivity].
  destruct (status_code r =? 200).
  { destruct (parsed r); reflexivity. }
  destruct (status_code r =? 400); [|reflexivity].
  destruct (parsed r) as [j|]; [|reflexivity]. simpl.
  destruct (py_get j "error") as [err|ex]; [|reflexivity].
  destruct (in_pending_errors err); reflexivity.
Qed.

Lemma poll_for_token_run (e : env) (c d i : json) (w : world) :
  run (WebApp.poll_for_token e c d i) w =
  (fst (WebApp.poll_for_token e c d i (State w (stored w))),
   log_request (token_request c d) w).
Proof.
  unfold run.
  pose proof (poll_for_token_state e c d i (State w ∅)) as Hs.
  rewrite (poll_for_token_fst e c d i w (stored w) ∅).
  destruct (WebApp.poll_for_token e c d i (State w ∅)) as [r s1].
  simpl in *. subst s1. reflexivity.
Qed.

(** An attempt answered 200 with a body that is JSON returns the body. *)
Lemma poll_for_token_200 (e : env) (c d i : json) (s : state)
    (r : response) (j : json) :
  provider e (net_log (the_world s)) (token_request c d) = Sent r ->
  status_code r = 200 -> parsed r = Some j ->
  fst (WebApp.poll_for_token e c d i s) = Ok j.
Proof.
  intros Hp Hc Hj. unfold WebApp.poll_for_token. munfold.
  rewrite Hp, Hc, Hj. reflexivity.
Qed.

(** An attempt answered 400 with one of the two waiting errors returns
    [None]. *)
Lemma poll_for_token_waiting (e : env) (c d i : json) (s : state)
    (r : response) (o : list (string * json)) (err : json) :
  provider e (net_log (the_world s)) (token_request c d) = Sent r ->
  status_code r = 400 -> parsed r = Some (JObj o) ->
  dict_get "error" o = Some err -> in_pending_errors err = true ->
  fst (WebApp.poll_for_token e c d i s) = Ok JNull.
Proof.
  intros Hp Hc Hj Herr Hin. unfold WebApp.poll_for_token. munfold.
  rewrite Hp, Hc, Hj. simpl. rewrite Herr. simpl. rewrite Hin. reflexivity.
Qed.




Lemma stored_log_request (q : request) (w : world) :
  stored (log_request q w) = stored w.
Proof. reflexivity. Qed.

(** C2. Whenever a poll ends in a terminal answer (token, error 500,
    expiry 408, or an exception left to Flask), the session is no longer
    in the store when the view returns, and every later poll of the same
    identifier answers "Invalid session ID" (404) and leaves the world as
    it is: no session is seen twice in a terminal state. *)
Theorem terminal_poll_forgets_session (e : env) (session_id : string)
    (w : world) :
  terminal (fst (run (WebApp.api_poll_token e session_id) w)) = true ->
  let w' := snd (run (WebApp.api_poll_token e session_id) w) in
  stored w' !! session_id = None /\
  forall e', run (WebApp.api_poll_token e' session_id) w' = (not_found, w').
Proof.
  intros Hterm w'.
  assert (stored w' !! session_id = None) as Hgone.
  { subst w'. destruct (stored w !! session_id) as [sd|] eqn:H.
    - destruct (py_gt (time_time e) (expires_at sd)) eqn:Hgt.
      + rewrite (poll_expired e session_id w sd H Hgt). simpl.
        apply stored_lookup_delete.
      + rewrite (poll_live e session_id w sd H Hgt) in Hterm |- *.
        cbv zeta in *.
        destruct (fst (WebApp.poll_for_token _ _ _ _ _)) as [token|ex].
        * destruct (truthy token); simpl in *.
          -- apply stored_lookup_delete.
          -- discriminate.
        * simpl. apply stored_lookup_delete.
    - rewrite (poll_unknown e session_id w H) in Hterm. discriminate. }
  split; [exact Hgone|]. intros e'. apply poll_unknown, Hgone.
Qed.

Lemma terminal_poll_forgets_session_witness :
  let w' := snd (run (WebApp.api_poll_token
                        (Sample.always 50 (Failed "connection refused")) "S")
                   Sample.w) in
  stored w' !! "S" = None /\
  forall e', run (WebApp.api_poll_token e' "S") w' = (not_found, w').
Proof.
  apply (terminal_poll_forgets_session
           (Sample.always 50 (Failed "connection refused")) "S" Sample.w).
  reflexivity.
Defined.

(** C3. For every stored session that has not expired, when the token
    endpoint answers 200 with a JSON object that has an [access_token],
    the poll answers with a token body whose [access_token] is that very
    value (the optional fields are read the same way, absent ones as
    null), and the session is deleted from the store. *)
Theorem poll_authorized (e : env) (session_id : string) (w : world)
    (sd : session_data) (r : response) (o : list (string * json))
    (tok : json) :
  stored w !! session_id = Some sd ->
  (time_time e <= expires_at sd)%Q ->
  provider e (net_log w) (poll_request sd) = Sent r ->
  status_code r = 200 ->
  parsed r = Some (JObj o) ->
  dict_get "access_token" o = Some tok ->
  run (WebApp.api_poll_token e session_id) w =
  (Ok (TokenBody tok (default JNull (dict_get "refresh_token" o))
         (default JNull (dict_get "id_token" o))
         (default JNull (dict_get "expires_in" o)), 200),
   forget session_id (log_request (poll_request sd) w)).
Proof.
  intros H Hle Hp Hc Hj Htok. apply py_gt_false in Hle.
  rewrite (poll_live e session_id w sd H Hle). cbv zeta.
  rewrite (poll_for_token_200 e (client_id sd) (device_code sd) (interval sd)
             (State w (stored w)) r (JObj o) Hp Hc Hj).
  destruct o as [|kv o']; [discriminate|]. simpl truthy. cbv iota.
  unfold token_answer. rewrite Htok. reflexivity.
Qed.

Lemma poll_authorized_witness :
  run (WebApp.api_poll_token (Sample.always 50 (Sent Sample.token_reply)) "S")
      Sample.w =
  (Ok (TokenBody (JStr "tok") JNull JNull JNull, 200),
   forget "S" (log_request (poll_request Sample.sd) Sample.w)).
Proof.
  apply (poll_authorized (Sample.always 50 (Sent Sample.token_reply)) "S"
           Sample.w Sample.sd Sample.token_reply
           [("access_token", JStr "tok")] (JStr "tok"));
    try reflexivity.
  discriminate.
Defined.

(** C4. For every stored session that has not expired, when the token
    endpoint answers 400 with error "authorization_pending", the poll
    answers pending and the store is left as it was: the session is still
    there, with the same [expires_at] and [interval]. *)
Theorem poll_authorization_pending (e : env) (session_id : string)
    (w : world) (sd : session_data) (r : response)
    (o : list (string * json)) :
  stored w !! session_id = Some sd ->
  (time_time e <= expires_at sd)%Q ->
  provider e (net_log w) (poll_request sd) = Sent r ->
  status_code r = 400 ->
  parsed r = Some (JObj o) ->
  dict_get "error" o = Some (JStr "authorization_pending") ->
  let w' := snd (run (WebApp.api_poll_token e session_id) w) in
  fst (run (WebApp.api_poll_token e session_id) w) = pending /\
  session_file w' = session_file w /\
  stored w' !! session_id = Some sd.
Proof.
  intros H Hle Hp Hc Hj Herr w'. subst w'. apply py_gt_false in Hle.
  rewrite (poll_live e session_id w sd H Hle). cbv zeta.
  rewrite (poll_for_token_waiting e (client_id sd) (device_code sd)
             (interval sd) (State w (stored w)) r o _ Hp Hc Hj Herr eq_refl).
  simpl. auto.
Qed.

Lemma poll_authorization_pending_witness :
  let w' := snd (run (WebApp.api_poll_token
                        (Sample.always 50 (Sent Sample.pending_reply)) "S")
                   Sample.w) in
  fst (run (WebApp.api_poll_token
              (Sample.always 50 (Sent Sample.pending_reply)) "S") Sample.w)
  = pending /\
  session_file w' = session_file Sample.w /\
  stored w' !! "S" = Some Sample.sd.
Proof.
  apply (poll_authorization_pending
           (Sample.always 50 (Sent Sample.pending_reply)) "S" Sample.w
           Sample.sd Sample.pending_reply
           [("error", JStr "authorization_pending")]);
    try reflexivity.
  discriminate.
Defined.

(** C5. For every identifier that is not in the store, the poll answers
    "Invalid session ID" with status 404 and leaves the world as it was:
    no request is sent to the provider and the store is unchanged. *)
Theorem poll_unknown_session (e : env) (session_id : string) (w : world) :
  stored w !! session_id = None ->
  run (WebApp.api_poll_token e session_id) w = (not_found, w) /\
  net_log (snd (run (WebApp.api_poll_token e session_id) w)) = net_log w /\
  session_file (snd (run (WebApp.api_poll_token e session_id) w))
  = session_file w.
Proof.
  intros H. rewrite (poll_unknown e session_id w H). auto.
Qed.

Lemma poll_unknown_session_witness :
  run (WebApp.api_poll_token (Sample.always 50 (Sent Sample.token_reply))
         "other") Sample.w = (not_found, Sample.w) /\
  net_log (snd (run (WebApp.api_poll_token
                       (Sample.always 50 (Sent Sample.token_reply)) "other")
                  Sample.w)) = net_log Sample.w /\
  session_file (snd (run (WebApp.api_poll_token
                            (Sample.always 50 (Sent Sample.token_reply))
                            "other") Sample.w))
  = session_file Sample.w.
Proof.
  apply (poll_unknown_session _ "other" Sample.w). reflexivity.
Defined.

(** A stored session before its deadline whose attempt raises: the view
    deletes the session and answers 500 with the text of the exception. *)
Lemma poll_live_raise (e : env) (session_id : string) (w : world)
    (sd : session_data) (ex : exn) :
  stored w !! session_id = Some sd ->
  py_gt (time_time e) (expires_at sd) = false ->
  fst (WebApp.poll_for_token e (client_id sd) (device_code sd) (interval sd)
         (State w (stored w))) = Raise ex ->
  run (WebApp.api_poll_token e session_id) w =
  (failed ex, forget session_id (log_request (poll_request sd) w)).
Proof.
  intros H Hgt Hr. rewrite (poll_live e session_id w sd H Hgt). cbv zeta.
  rewrite Hr. reflexivity.
Qed.

(** C9. For every stored session that has not expired, if the redemption
    attempt raises, whatever the exception, the poll deletes the session
    and answers 500 with the exception's text.  A transport failure and a
    400 answer whose body is not JSON are two such cases: one failed
    request ends the flow. *)
Theorem failed_attempt_ends_flow (e : env) (session_id : string) (w : world)
    (sd : session_data) :
  stored w !! session_id = Some sd ->
  (time_time e <= expires_at sd)%Q ->
  let after := forget session_id (log_request (poll_request sd) w) in
  (forall ex w1,
      run (WebApp.poll_for_token e (client_id sd) (device_code sd)
             (interval sd)) w = (Raise ex, w1) ->
      run (WebApp.api_poll_token e session_id) w = (failed ex, after)) /\
  (forall msg,
      provider e (net_log w) (poll_request sd) = Failed msg ->
      run (WebApp.api_poll_token e session_id) w
      = (failed (RequestException msg), after)) /\
  (forall r,
      provider e (net_log w) (poll_request sd) = Sent r ->
      status_code r = 400 -> parsed r = None ->
      run (WebApp.api_poll_token e session_id) w
      = (failed (JSONDecodeError r), after)) /\
  stored after !! session_id = None.
Proof.
  intros H Hle after. apply py_gt_false in Hle. repeat split.
  - intros ex w1 Hrun. rewrite poll_for_token_run in Hrun.
    apply (poll_live_raise e session_id w sd ex H Hle). congruence.
  - intros msg Hp. apply (poll_live_raise e session_id w sd _ H Hle).
    unfold WebApp.poll_for_token. munfold. simpl.
    unfold poll_request in Hp. rewrite Hp. reflexivity.
  - intros r Hp Hc Hj. apply (poll_live_raise e session_id w sd _ H Hle).
    unfold WebApp.poll_for_token. munfold. simpl.
    unfold poll_request in Hp. rewrite Hp, Hc, Hj. reflexivity.
  - apply stored_lookup_delete.
Qed.

Lemma failed_attempt_ends_flow_witness :
  run (WebApp.api_poll_token (Sample.always 50 (Failed "connection refused"))
         "S") Sample.w
  = (failed (RequestException "connection refused"),
     forget "S" (log_request (poll_request Sample.sd) Sample.w)) /\
  run (WebApp.api_poll_token (Sample.always 50 (Sent Sample.not_json_reply))
         "S") Sample.w
  = (failed (JSONDecodeError Sample.not_json_reply),
     forget "S" (log_request (poll_request Sample.sd) Sample.w)).
Proof.
  split.
  - pose proof (failed_attempt_ends_flow
                  (Sample.always 50 (Failed "connection refused")) "S"
                  Sample.w Sample.sd eq_refl) as Hc.
    simpl in Hc. apply Hc; [discriminate | reflexivity].
  - pose proof (failed_attempt_ends_flow
                  (Sample.always 50 (Sent Sample.not_json_reply)) "S"
                  Sample.w Sample.sd eq_refl) as Hc.
    simpl in Hc. apply Hc; [discriminate | reflexivity ..].
Defined.

(** A start request whose [client_id] is not truthy is refused before
    anything else happens. *)
Lemma start_falsy_client_id (e : env) (o : list (string * json)) (w : world) :
  truthy (default JNull (dict_get "client_id" o)) = false ->
  run (WebApp.api_device_code e (JObj o)) w =
  (Ok (ErrorBody (Literal "Client ID is required"), 400), w).
Proof.
  intros Hf. unfold run, WebApp.api_device_code. munfold. simpl.
  rewrite Hf. reflexivity.
Qed.

(** C10. For every start request whose [client_id] is absent or the
    empty string, the view answers 400 "Client ID is required" and leaves
    the world as it was: nothing is sent to the provider and no session is
    stored. *)
Theorem start_without_client_id (e : env) (o : list (string * json))
    (w : world) :
  dict_get "client_id" o = None \/ dict_get "client_id" o = Some (JStr "") ->
  let out := run (WebApp.api_device_code e (JObj o)) w in
  fst out = Ok (ErrorBody (Literal "Client ID is required"), 400) /\
  net_log (snd out) = net_log w /\
  session_file (snd out) = session_file w /\
  snd out = w.
Proof.
  intros Hc out. subst out.
  rewrite (start_falsy_client_id e o w); [auto|].
  destruct Hc as [-> | ->]; reflexivity.
Qed.

Lemma start_without_client_id_witness :
  let out := run (WebApp.api_device_code
                    (Sample.always 50 (Sent Sample.token_reply))
                    (JObj [("scope", JStr "openid")])) Sample.w in
  fst out = Ok (ErrorBody (Literal "Client ID is required"), 400) /\
  net_log (snd out) = net_log Sample.w /\
  session_file (snd out) = session_file Sample.w /\
  snd out = Sample.w.
Proof.
  apply (start_without_client_id _ [("scope", JStr "openid")] Sample.w).
  left. reflexivity.
Defined.


Lemma raise_for_status_4xx_5xx (r : response) :
  (400 <=? status_code r) && (status_code r <? 600) = true <-> is_4xx_5xx r.
Proof. unfold is_4xx_5xx. rewrite andb_true_iff, Z.leb_le, Z.ltb_lt. tauto. Qed.

Lemma get_device_code_run (e : env) (c sc : json) (w : world) (r : response) :
  provider e (net_log w) (device_code_request c sc) = Sent r ->
  run (WebApp.get_device_code e c sc) w =
  (if (400 <=? status_code r) && (status_code r <? 600)
   then Raise (HTTPError r)
   else match parsed r with
        | Some j => Ok j
        | None => Raise (JSONDecodeError r)
        end,
   log_request (device_code_request c sc) w).
Proof.
  intros Hp. unfold run, WebApp.get_device_code. munfold. simpl.
  rewrite Hp. destruct ((400 <=? status_code r) && (status_code r <? 600)).
  - reflexivity.
  - destruct (parsed r); reflexivity.
Qed.

(** C6 (amended). When the provider answers the device-code request,
    [get_device_code] (the same text in both programs) fails with an
    [HTTPError] holding the response exactly when the status is 4xx or
    5xx; for every 2xx answer whose body is JSON it returns the parsed
    body, and for an answer outside 4xx and 5xx whose body is not JSON it
    fails with the JSON decoding error. *)
Theorem get_device_code_by_status (e : env) (c sc : json) (w : world)
    (r : response) :
  provider e (net_log w) (device_code_request c sc) = Sent r ->
  let out := fst (run (WebApp.get_device_code e c sc) w) in
  (provider_error r out <-> is_4xx_5xx r) /\
  (is_2xx r -> forall j, parsed r = Some j -> out = Ok j) /\
  (~ is_4xx_5xx r -> parsed r = None -> out = Raise (JSONDecodeError r)) /\
  run (Cli.get_device_code e c sc) w = run (WebApp.get_device_code e c sc) w.
Proof.
  intros Hp out. subst out.
  change (Cli.get_device_code e c sc) with (WebApp.get_device_code e c sc).
  rewrite (get_device_code_run e c sc w r Hp).
  simpl. unfold provider_error.
  pose proof (raise_for_status_4xx_5xx r) as Hs.
  destruct ((400 <=? status_code r) && (status_code r <? 600)) eqn:Hb.
  - assert (is_4xx_5xx r) as H45 by (apply Hs; reflexivity).
    split; [tauto|]. split; [|split; [|reflexivity]].
    + intros H2. unfold is_2xx, is_4xx_5xx in *. lia.
    + intros Hn. contradiction.
  - assert (~ is_4xx_5xx r) as H45 by (rewrite <- Hs; discriminate).
    split; [|split; [|split; [|reflexivity]]].
    + split; [|contradiction].
      intros Hr. destruct (parsed r); discriminate.
    + intros _ j ->. reflexivity.
    + intros _ ->. reflexivity.
Qed.

Lemma get_device_code_by_status_witness :
  let r := Sample.reply 503 [] in
  let out := fst (run (WebApp.get_device_code (Sample.always 50 (Sent r))
                         (JStr "abc") (JStr "openid")) Sample.w) in
  provider_error r out <-> is_4xx_5xx r.
Proof.
  apply (get_device_code_by_status
           (Sample.always 50 (Sent (Sample.reply 503 [])))
           (JStr "abc") (JStr "openid") Sample.w (Sample.reply 503 [])).
  reflexivity.
Defined.

(** C6 (as stated, refuted). A 302 answer is not 2xx, yet
    [get_device_code] does not fail on it: it returns the parsed body. *)
Lemma get_device_code_302_returns :
  let r := Sample.redirect_reply in
  let out := fst (run (WebApp.get_device_code (Sample.always 50 (Sent r))
                         (JStr "abc") (JStr "openid")) Sample.w) in
  ~ is_2xx r /\
  out = Ok (JObj [("device_code", JStr "d1")]) /\
  ~ (provider_error r out <-> ~ is_2xx r).
Proof.
  assert (~ is_2xx Sample.redirect_reply) as Hn.
  { unfold is_2xx. simpl. lia. }
  split; [exact Hn|]. split; [reflexivity|].
  intros [_ Hback]. specialize (Hback Hn). discriminate Hback.
Qed.

(** [time.sleep] sends nothing. *)
Lemma time_sleep_net_log (v : json) (s : state) :
  net_log (the_world (snd (time_sleep v s))) = net_log (the_world s).
Proof.
  destruct v as [|b|q| | |]; simpl; try reflexivity.
  destruct (sleep_fits _ q); [destruct (py_gt 0 q)|]; reflexivity.
Qed.

(** One turn of the blocking loop, written out. *)
Lemma cli_poll_unfold (e : env) (c d i : json) (fuel : nat) (s : state) :
  Cli.poll_for_token (S fuel) e c d i s =
  let s1 := posted (token_request c d) s in
  match provider e (net_log (the_world s)) (token_request c d) with
  | Failed msg => (Raise (RequestException msg), s1)
  | Sent r =>
      if status_code r =? 200 then
        match parsed r with
        | Some j => (Ok (Some j), s1)
        | None => (Raise (JSONDecodeError r), s1)
        end
      else if status_code r =? 400 then
        match parsed r with
        | Some j =>
            match py_get j "error" with
            | Ok err =>
                if in_pending_errors err then
                  (time_sleep i ;; Cli.poll_for_token fuel e c d i) s1
                else (Raise (SystemExit 1), s1)
            | Raise ex => (Raise ex, s1)
            end
        | None => (Raise (JSONDecodeError r), s1)
        end
      else (Raise (SystemExit 1), s1)
  end.
Proof.
  simpl. munfold. unfold posted.
  destruct (provider e (net_log (the_world s)) (token_request c d))
    as [r|msg]; [|reflexivity].
  destruct (status_code r =? 200).
  { destruct (parsed r); reflexivity. }
  destruct (status_code r =? 400); [|reflexivity].
  destruct (parsed r) as [j|]; [|reflexivity].
  destruct (py_get j "error") as [err|ex]; [|reflexivity].
  destruct (in_pending_errors err); reflexivity.
Qed.

(** On a waiting answer the loop sleeps [interval] seconds, then tries
    again. *)
Lemma cli_poll_waiting (e : env) (c d i : json) (fuel : nat) (s : state)
    (r : response) (o : list (string * json)) (err : json) :
  provider e (net_log (the_world s)) (token_request c d) = Sent r ->
  status_code r = 400 -> parsed r = Some (JObj o) ->
  dict_get "error" o = Some err -> in_pending_errors err = true ->
  Cli.poll_for_token (S fuel) e c d i s =
  (time_sleep i ;; Cli.poll_for_token fuel e c d i)
    (posted (token_request c d) s).
Proof.
  intros Hp Hc Hj Herr Hin. rewrite cli_poll_unfold. cbv zeta.
  rewrite Hp, Hc, Hj. simpl. rewrite Herr. simpl. rewrite Hin. reflexivity.
Qed.

(** Two providers that agree once more than [n] requests were sent make
    the loop behave the same from any such point on. *)
Lemma cli_poll_agree (e1 e2 : env) (c d i : json) (n : nat) :
  (forall log q, (n < length log)%nat -> provider e1 log q = provider e2 log q) ->
  forall fuel s,
    (n < length (net_log (the_world s)))%nat ->
    Cli.poll_for_token fuel e1 c d i s = Cli.poll_for_token fuel e2 c d i s.
Proof.
  intros Hagree fuel. induction fuel as [|fuel IH]; intros s Hlen.
  { reflexivity. }
  rewrite !cli_poll_unfold. cbv zeta.
  rewrite (Hagree _ (token_request c d) Hlen).
  destruct (provider e2 (net_log (the_world s)) (token_request c d))
    as [r|msg]; [|reflexivity].
  destruct (status_code r =? 200); [reflexivity|].
  destruct (status_code r =? 400); [|reflexivity].
  destruct (parsed r) as [j|]; [|reflexivity].
  destruct (py_get j "error") as [err|ex]; [|reflexivity].
  destruct (in_pending_errors err); [|reflexivity].
  unfold mbind, M_bind, bind.
  pose proof (time_sleep_net_log i (posted (token_request c d) s)) as Hsl.
  destruct (time_sleep i _) as [[[]|ex] s2]; [|reflexivity].
  apply IH. simpl in Hsl. rewrite Hsl, length_app. simpl. lia.
Qed.

(** C7. Take two providers whose next answer is a 400, with error
    "slow_down" for the first and "authorization_pending" for the second,
    and that agree afterwards.  Then the web attempt returns the same
    "still waiting" value with both, the poll view gives the same answer
    and world with both whatever the session, the blocking loop sleeps
    the same [interval] seconds before its next attempt with both, and
    the whole loop runs the same with both: no other wait is computed for
    "slow_down". *)
Theorem slow_down_as_authorization_pending (e1 e2 : env) (w : world)
    (r1 r2 : response) (o1 o2 : list (string * json)) :
  status_code r1 = 400 -> parsed r1 = Some (JObj o1) ->
  dict_get "error" o1 = Some (JStr "slow_down") ->
  status_code r2 = 400 -> parsed r2 = Some (JObj o2) ->
  dict_get "error" o2 = Some (JStr "authorization_pending") ->
  (forall q, provider e1 (net_log w) q = Sent r1) ->
  (forall q, provider e2 (net_log w) q = Sent r2) ->
  (forall log q, log <> net_log w -> provider e1 log q = provider e2 log q) ->
  time_time e1 = time_time e2 ->
  (forall c d i,
      run (WebApp.poll_for_token e1 c d i) w
      = (Ok JNull, log_request (token_request c d) w) /\
      run (WebApp.poll_for_token e2 c d i) w
      = (Ok JNull, log_request (token_request c d) w)) /\
  (forall session_id,
      run (WebApp.api_poll_token e1 session_id) w
      = run (WebApp.api_poll_token e2 session_id) w) /\
  (forall fuel c d i,
      run (Cli.poll_for_token (S fuel) e1 c d i) w
      = run (time_sleep i ;; Cli.poll_for_token fuel e1 c d i)
            (log_request (token_request c d) w) /\
      run (Cli.poll_for_token (S fuel) e2 c d i) w
      = run (time_sleep i ;; Cli.poll_for_token fuel e2 c d i)
            (log_request (token_request c d) w)) /\
  (forall fuel c d i,
      run (Cli.poll_for_token fuel e1 c d i) w
      = run (Cli.poll_for_token fuel e2 c d i) w).
Proof.
  intros Hc1 Hj1 Herr1 Hc2 Hj2 Herr2 Hp1 Hp2 Hagree Htime.
  assert (forall c d i s, the_world s = w ->
            fst (WebApp.poll_for_token e1 c d i s) = Ok JNull /\
            fst (WebApp.poll_for_token e2 c d i s) = Ok JNull) as Hweb.
  { intros c d i s Hw. split.
    - apply (poll_for_token_waiting e1 c d i s r1 o1 (JStr "slow_down"));
        auto.
      rewrite Hw. apply Hp1.
    - apply (poll_for_token_waiting e2 c d i s r2 o2
               (JStr "authorization_pending")); auto.
      rewrite Hw. apply Hp2. }
  assert (forall fuel c d i,
            Cli.poll_for_token (S fuel) e1 c d i (State w ∅)
            = (time_sleep i ;; Cli.poll_for_token fuel e1 c d i)
                (posted (token_request c d) (State w ∅)) /\
            Cli.poll_for_token (S fuel) e2 c d i (State w ∅)
            = (time_sleep i ;; Cli.poll_for_token fuel e2 c d i)
                (posted (token_request c d) (State w ∅))) as Hcli.
  { intros fuel c d i. split.
    - apply (cli_poll_waiting e1 c d i fuel _ r1 o1 (JStr "slow_down"));
        auto.
    - apply (cli_poll_waiting e2 c d i fuel _ r2 o2
               (JStr "authorization_pending")); auto. }
  split; [|split; [|split]].
  - intros c d i. rewrite !poll_for_token_run.
    destruct (Hweb c d i (State w (stored w)) eq_refl) as [-> ->]. auto.
  - intros session_id.
    destruct (stored w !! session_id) as [sd|] eqn:H.
    + destruct (py_gt (time_time e1) (expires_at sd)) eqn:Hgt.
      * rewrite (poll_expired e1 session_id w sd H Hgt).
        rewrite Htime in Hgt.
        rewrite (poll_expired e2 session_id w sd H Hgt). reflexivity.
      * rewrite (poll_live e1 session_id w sd H Hgt).
        rewrite Htime in Hgt.
        rewrite (poll_live e2 session_id w sd H Hgt). cbv zeta.
        destruct (Hweb (client_id sd) (device_code sd) (interval sd)
                    (State w (stored w)) eq_refl) as [-> ->].
        reflexivity.
    + rewrite !poll_unknown by exact H. reflexivity.
  - intros fuel c d i. unfold run.
    destruct (Hcli fuel c d i) as [-> ->]. auto.
  - intros [|fuel] c d i; [reflexivity|]. unfold run.
    destruct (Hcli fuel c d i) as [-> ->].
    unfold mbind, M_bind, bind.
    pose proof (time_sleep_net_log i
                  (posted (token_request c d) (State w ∅))) as Hsl.
    destruct (time_sleep i _) as [[[]|ex] s2]; [|reflexivity].
    rewrite (cli_poll_agree e1 e2 c d i (length (net_log w))).
    + reflexivity.
    + intros log q Hlen. apply Hagree. intros ->. lia.
    + simpl in Hsl. rewrite Hsl, length_app. simpl. lia.
Qed.


Lemma slow_down_as_authorization_pending_witness :
  let e1 := Sample.then_token 50 Sample.slow_down_reply in
  let e2 := Sample.then_token 50 Sample.pending_reply in
  run (WebApp.api_poll_token e1 "S") Sample.w
  = run (WebApp.api_poll_token e2 "S") Sample.w /\
  run (Cli.poll_for_token 3 e1 (JStr "abc") (JStr "d1") (JNum 5)) Sample.w
  = run (Cli.poll_for_token 3 e2 (JStr "abc") (JStr "d1") (JNum 5)) Sample.w.
Proof.
  destruct (slow_down_as_authorization_pending
              (Sample.then_token 50 Sample.slow_down_reply)
              (Sample.then_token 50 Sample.pending_reply)
              Sample.w Sample.slow_down_reply Sample.pending_reply
              [("error", JStr "slow_down")]
              [("error", JStr "authorization_pending")]
              eq_refl eq_refl eq_refl eq_refl eq_refl eq_refl
              (fun q => eq_refl) (fun q => eq_refl)
              (fun log q =>
                 match log with
                 | [] => fun H => False_ind _ (H eq_refl)
                 | _ :: _ => fun _ => eq_refl
                 end)
              eq_refl) as (_ & Hview & _ & Hloop).
  split; [apply Hview | apply Hloop].
Defined.

(** The blocking loop on a provider that says "slow_down" once and then
    hands out the token: two requests, one sleep of [interval] seconds. *)
Example cli_poll_slow_down_then_token :
  run (Cli.poll_for_token 3 (Sample.then_token 50 Sample.slow_down_reply)
         (JStr "abc") (JStr "d1") (JNum 5)) Sample.w
  = (Ok (Some (JObj [("access_token", JStr "tok")])),
     World (session_file Sample.w)
           [token_request (JStr "abc") (JStr "d1");
            token_request (JStr "abc") (JStr "d1")]
           [5%Q] (the_machine Sample.w)).
Proof. reflexivity. Qed.

Section Store.
Import Interleaving.

Implicit Types (m : mutation) (p : pc) (d : gmap string session_data)
  (f : option (gmap string session_data)) (k : string).

(** A view that runs with no other leaves the file holding its update of
    what the file held. *)
Lemma alone_update m f : default ∅ (alone m f) = update m (default ∅ f).
Proof.
  unfold alone. destruct m as [k v|k]; simpl; [reflexivity|].
  destruct (default ∅ f !! k) eqn:H; simpl; [reflexivity|].
  symmetry. apply delete_id, H.
Qed.

Lemma serial_alone m1 m2 f :
  serial m1 m2 f = (Done, Done, alone m2 (alone m1 f)).
Proof.
  unfold serial, alone.
  destruct m1 as [k1 v1|k1]; simpl.
  - destruct m2 as [k2 v2|k2]; simpl; [reflexivity|].
    destruct (<[k1:=v1]> (default ∅ f) !! k2); reflexivity.
  - destruct (default ∅ f !! k1); simpl.
    + destruct m2 as [k2 v2|k2]; simpl; [reflexivity|].
      destruct (delete k1 (default ∅ f) !! k2); reflexivity.
    + destruct m2 as [k2 v2|k2]; simpl; [reflexivity|].
      destruct (default ∅ f !! k2); reflexivity.
Qed.

Lemma update_lookup_ne m d k : k ≠ key m -> update m d !! k = d !! k.
Proof.
  intros Hne. destruct m; simpl in *.
  - apply lookup_insert_ne. congruence.
  - apply lookup_delete_ne. congruence.
Qed.

Lemma update_comm m1 m2 d :
  key m1 ≠ key m2 -> update m2 (update m1 d) = update m1 (update m2 d).
Proof.
  intros Hne. destruct m1 as [k1 v1|k1], m2 as [k2 v2|k2]; simpl in *.
  - apply insert_insert_ne. congruence.
  - apply delete_insert_ne. congruence.
  - symmetry. apply delete_insert_ne. congruence.
  - apply delete_delete.
Qed.

(** The store a poll deletes from. *)
Lemma step_deleting k d0 p1 p2 f :
  deleting k d0 p1 p2 f ->
  deleting k d0 (step (Delete k) p1 f).1 p2 (step (Delete k) p1 f).2.
Proof.
  intros (H1 & H2 & Hf & Hd). unfold deleting. destruct p1 as [|d|]; simpl.
  - destruct (default ∅ f !! k) eqn:Hk; simpl.
    + repeat split; auto.
      * destruct Hf as [-> | ->]; [reflexivity|]. apply delete_delete_eq.
      * intros [?|?]; [discriminate|auto].
    + assert (default ∅ f = delete k d0) as Hdel.
      { destruct Hf as [Hf|Hf]; [|exact Hf].
        rewrite <- Hf. symmetry. apply delete_id, Hk. }
      repeat split; auto.
  - simpl in H1. repeat split; auto.
  - repeat split; auto.
Qed.

Lemma deleting_swap k d0 p1 p2 f :
  deleting k d0 p1 p2 f -> deleting k d0 p2 p1 f.
Proof. unfold deleting. tauto. Qed.

Lemma interleave_deleting k d0 sched :
  forall p1 p2 f,
    deleting k d0 p1 p2 f ->
    let out := interleave (Delete k) (Delete k) sched p1 p2 f in
    deleting k d0 out.1.1 out.1.2 out.2.
Proof.
  induction sched as [|[|] sched IH]; intros p1 p2 f Hinv; simpl.
  - exact Hinv.
  - destruct (step (Delete k) p2 f) as [p2' f'] eqn:E.
    apply IH. apply deleting_swap.
    pose proof (step_deleting k d0 p2 p1 f (deleting_swap _ _ _ _ _ Hinv)) as Hs.
    rewrite E in Hs. exact Hs.
  - destruct (step (Delete k) p1 f) as [p1' f'] eqn:E.
    apply IH.
    pose proof (step_deleting k d0 p1 p2 f Hinv) as Hs.
    rewrite E in Hs. exact Hs.
Qed.

End Store.


(** The two views are such mutations: a poll that does not answer
    "pending" does to the file what [Delete] does alone. *)
Lemma poll_store_as_mutation (e : env) (session_id : string) (w : world) :
  fst (run (WebApp.api_poll_token e session_id) w) <> pending ->
  session_file (snd (run (WebApp.api_poll_token e session_id) w))
  = Interleaving.alone (Interleaving.Delete session_id) (session_file w).
Proof.
  intros Hnp. unfold Interleaving.alone. simpl. fold (stored w).
  destruct (stored w !! session_id) as [sd|] eqn:H.
  - destruct (py_gt (time_time e) (expires_at sd)) eqn:Hgt.
    + rewrite (poll_expired e session_id w sd H Hgt). reflexivity.
    + rewrite (poll_live e session_id w sd H Hgt) in Hnp |- *. cbv zeta in *.
      destruct (fst (WebApp.poll_for_token _ _ _ _ _)) as [token|ex];
        [|reflexivity].
      destruct (truthy token); [reflexivity|].
      simpl in Hnp. contradiction.
  - rewrite (poll_unknown e session_id w H). reflexivity.
Qed.

(** A start that answers with the user code has done to the file what
    [Create] does alone, under the identifier it answers with. *)
Lemma start_store_as_mutation (e : env) (data : json) (w : world)
    (sid : string) (vu uc msg : json) :
  fst (run (WebApp.api_device_code e data) w)
  = Ok (DeviceBody sid vu uc msg, 200) ->
  exists v,
    sid = uuid4 e /\
    session_file (snd (run (WebApp.api_device_code e data) w))
    = Interleaving.alone (Interleaving.Create sid v) (session_file w).
Proof.
  unfold run, WebApp.api_device_code, WebApp.get_device_code. munfold.
  destruct (py_get data "client_id") as [c|]; simpl; [|refuse].
  destruct (py_get_default data "scope" _) as [sc|]; simpl; [|refuse].
  destruct (truthy c); simpl; [|refuse].
  destruct (provider e (net_log w) (device_code_request c sc)) as [r|];
    simpl; [|refuse].
  destruct ((400 <=? status_code r) && (status_code r <? 600)); simpl;
    [refuse|].
  destruct (parsed r) as [device|]; simpl; [|refuse].
  destruct (py_index device "device_code") as [dc|]; simpl; [|refuse].
  destruct (py_get_default device "interval" _) as [iv|]; simpl;
    [|refuse].
  destruct (py_get_default device "expires_in" _) as [ei|]; simpl;
    [|refuse].
  unfold py_add_time. simpl.
  destruct (float_plus _ (time_time e) ei) as [ea|]; simpl; [|refuse].
  destruct (py_index device "verification_uri"); simpl; [|refuse].
  destruct (py_index device "user_code"); simpl; [|refuse].
  destruct (py_index device "message"); simpl; [|refuse].
  intros [= <- _ _ _]. eexists. split; reflexivity.
Qed.

(** C8 (as stated, refuted). Two start views that store different
    sessions, interleaved as load, load, save, save: both return, and the
    session of the first is not in the store. *)
Lemma interleaved_creates_lose_session :
  let m1 := Interleaving.Create "A" Sample.sd in
  let m2 := Interleaving.Create "B" Sample.sd in
  let out := Interleaving.interleave m1 m2 [false; true; false; true]
               Interleaving.Ready Interleaving.Ready None in
  Interleaving.key m1 <> Interleaving.key m2 /\
  Interleaving.finished out /\
  Interleaving.final out !! "A" = None /\
  Interleaving.final (Interleaving.serial m1 m2 None) !! "A" = Some Sample.sd /\
  Interleaving.final out <> Interleaving.final (Interleaving.serial m1 m2 None).
Proof.
  split; [discriminate|]. split; [split; reflexivity|].
  split; [reflexivity|]. split; [reflexivity|].
  intros Heq.
  assert (Interleaving.final
            (Interleaving.interleave (Interleaving.Create "A" Sample.sd)
               (Interleaving.Create "B" Sample.sd) [false; true; false; true]
               Interleaving.Ready Interleaving.Ready None) !! "A"
          = Some Sample.sd) as Hbad.
  { rewrite Heq. reflexivity. }
  discriminate Hbad.
Qed.

(** C8 (amended). The store has no atomic operation: a mutation is a load
    of the whole file, an update of the copy and a save of the whole file.
    With each load and each save taken as one step:
    - when one view runs to its end before the other starts, two
      mutations of different keys do not interfere: each key holds what
      its own mutation made of it, every other key is as before, and the
      order of the two views does not matter;
    - two polls that delete the same key, interleaved in any way, leave
      the store as it was with that key removed once both have
      returned. *)
Theorem store_serial_and_double_delete :
  (forall m1 m2 f,
      Interleaving.key m1 <> Interleaving.key m2 ->
      let d := default ∅ f in
      let out := Interleaving.serial m1 m2 f in
      Interleaving.finished out /\
      Interleaving.final out !! Interleaving.key m1
      = Interleaving.update m1 d !! Interleaving.key m1 /\
      Interleaving.final out !! Interleaving.key m2
      = Interleaving.update m2 d !! Interleaving.key m2 /\
      (forall k, k <> Interleaving.key m1 -> k <> Interleaving.key m2 ->
                 Interleaving.final out !! k = d !! k) /\
      Interleaving.final out
      = Interleaving.final (Interleaving.serial m2 m1 f)) /\
  (forall k sched f,
      let out := Interleaving.interleave (Interleaving.Delete k)
                   (Interleaving.Delete k) sched
                   Interleaving.Ready Interleaving.Ready f in
      Interleaving.finished out ->
      Interleaving.final out = delete k (default ∅ f)).
Proof.
  split.
  - intros m1 m2 f Hne d out. subst out d.
    rewrite !serial_alone. unfold Interleaving.final, Interleaving.finished.
    simpl. rewrite !alone_update.
    split; [auto|]. split; [|split; [|split]].
    + rewrite update_lookup_ne by congruence. reflexivity.
    + rewrite (update_comm m1 m2) by exact Hne.
      rewrite update_lookup_ne by congruence. reflexivity.
    + intros k H1 H2. rewrite !update_lookup_ne by assumption. reflexivity.
    + apply update_comm, Hne.
  - intros k sched f out [Hd1 Hd2].
    assert (Interleaving.deleting k (default ∅ f)
              Interleaving.Ready Interleaving.Ready f) as Hinit.
    { unfold Interleaving.deleting. simpl. repeat split; auto.
      intros [?|?]; discriminate. }
    pose proof (interleave_deleting k (default ∅ f) sched _ _ _ Hinit)
      as (_ & _ & _ & Hdone).
    apply Hdone. left. exact Hd1.
Qed.

Lemma store_serial_and_double_delete_witness :
  Interleaving.final
    (Interleaving.serial (Interleaving.Create "A" Sample.sd)
       (Interleaving.Delete "S") (session_file Sample.w))
  = Interleaving.final
      (Interleaving.serial (Interleaving.Delete "S")
         (Interleaving.Create "A" Sample.sd) (session_file Sample.w)) /\
  Interleaving.final
    (Interleaving.interleave (Interleaving.Delete "S") (Interleaving.Delete "S")
       [false; true; true; false] Interleaving.Ready Interleaving.Ready
       (session_file Sample.w))
  = delete "S" (stored Sample.w).
Proof.
  destruct store_serial_and_double_delete as [Hser Hdel]. split.
  - apply (Hser (Interleaving.Create "A" Sample.sd) (Interleaving.Delete "S")
             (session_file Sample.w)).
    discriminate.
  - apply (Hdel "S" [false; true; true; false] (session_file Sample.w)).
    split; reflexivity.
Defined.


(** A whole flow, one view after the other: the start stores the session
    and shows the user code, the first poll is told to wait, the second
    gets the token, and the session is then unknown. *)
Example flow_start_pending_token :
  let '(r0, w0) := run (WebApp.api_device_code (Sample.flow 0)
                          (JObj [("client_id", JStr "abc")]))
                       Sample.empty_world in
  let '(r1, w1) := run (WebApp.api_poll_token (Sample.flow 1) "S") w0 in
  let '(r2, w2) := run (WebApp.api_poll_token (Sample.flow 6) "S") w1 in
  let '(r3, w3) := run (WebApp.api_poll_token (Sample.flow 11) "S") w2 in
  r0 = Ok (DeviceBody "S" (JStr "https://x") (JStr "U1") (JStr "enter U1"),
           200) /\
  stored w0 !! "S"
  = Some (SessionData (JStr "abc") (JStr "d1") (JNum 5) 900) /\
  r1 = pending /\ stored w1 = stored w0 /\
  r2 = Ok (TokenBody (JStr "tok") JNull JNull JNull, 200) /\
  stored w2 !! "S" = None /\
  r3 = not_found /\
  session_file w3 = session_file w2 /\ net_log w3 = net_log w2.
Proof. vm_compute. repeat split; reflexivity. Qed.

(** A 200 answer that is a non-empty object without [access_token]: the
    session is deleted and saved first, the missing key then raises, the
    handler's own [del] raises in turn and the view leaves that exception
    to Flask. *)
Example poll_token_without_access_token :
  run (WebApp.api_poll_token
         (Sample.always 50 (Sent (Sample.reply 200 [("token_type", JStr "Bearer")])))
         "S") Sample.w
  = (Raise (KeyError "S"),
     forget "S" (log_request (poll_request Sample.sd) Sample.w)).
Proof. reflexivity. Qed.

(** A 200 answer whose body is the empty object does not pass
    [if token:]: the view answers pending and keeps the session. *)
Example poll_empty_token_is_pending :
  run (WebApp.api_poll_token (Sample.always 50 (Sent (Sample.reply 200 [])))
         "S") Sample.w
  = (pending, log_request (poll_request Sample.sd) Sample.w).
Proof. reflexivity. Qed.


(** ** Further properties of the two views *)

Lemma not_4xx_5xx (r : response) :
  ~ is_4xx_5xx r -> (400 <=? status_code r) && (status_code r <? 600) = false.
Proof.
  intros Hn. destruct ((400 <=? status_code r) && (status_code r <? 600)) eqn:Hb;
    [|reflexivity].
  exfalso. apply Hn, raise_for_status_4xx_5xx, Hb.
Qed.

(** The run of a start that goes through. *)
Lemma start_granted (e : env) (o dev : list (string * json))
    (w : world) (r : response) (dc vu uc msg : json) (ea : Q) :
  let c := requested_client o in
  let q := device_code_request c (requested_scope o) in
  truthy c = true ->
  provider e (net_log w) q = Sent r ->
  ~ is_4xx_5xx r ->
  parsed r = Some (JObj dev) ->
  dict_get "device_code" dev = Some dc ->
  dict_get "verification_uri" dev = Some vu ->
  dict_get "user_code" dev = Some uc ->
  dict_get "message" dev = Some msg ->
  float_plus (the_machine w) (time_time e)
    (default (JNum 900) (dict_get "expires_in" dev)) = Ok ea ->
  run (WebApp.api_device_code e (JObj o)) w =
  (Ok (DeviceBody (uuid4 e) vu uc msg, 200),
   remember (uuid4 e) (granted_session c dev dc ea) q w).
Proof.
  intros c q Hc Hp Hs Hj Hdc Hvu Huc Hmsg Hea. subst c q.
  unfold requested_client, requested_scope in *.
  apply not_4xx_5xx in Hs.
  unfold run, WebApp.api_device_code, WebApp.get_device_code. munfold. simpl.
  rewrite Hc. simpl. rewrite Hp, Hs, Hj. simpl.
  rewrite Hdc. simpl. rewrite Hea. simpl. rewrite Hvu. simpl.
  rewrite Huc. simpl. rewrite Hmsg. reflexivity.
Qed.


(** X1. A start whose request names a client and whose grant has the
    device code and the three display fields stores one session under the
    identifier drawn, holding the client, the device code, the grant's
    interval (5 when absent) and, as deadline, the float the machine
    computes for clock + [expires_in] (900 when absent), provided that
    sum raises no error; it sends one request and answers with the
    display fields. *)
Theorem start_stores_session (e : env) (o dev : list (string * json))
    (w : world) (r : response) (dc vu uc msg : json) (ea : Q) :
  let c := requested_client o in
  let q := device_code_request c (requested_scope o) in
  truthy c = true ->
  provider e (net_log w) q = Sent r ->
  ~ is_4xx_5xx r ->
  parsed r = Some (JObj dev) ->
  dict_get "device_code" dev = Some dc ->
  dict_get "verification_uri" dev = Some vu ->
  dict_get "user_code" dev = Some uc ->
  dict_get "message" dev = Some msg ->
  float_plus (the_machine w) (time_time e)
    (default (JNum 900) (dict_get "expires_in" dev)) = Ok ea ->
  run (WebApp.api_device_code e (JObj o)) w =
  (Ok (DeviceBody (uuid4 e) vu uc msg, 200),
   remember (uuid4 e) (granted_session c dev dc ea) q w).
Proof.
  intros c q. apply start_granted.
Qed.

Lemma start_stores_session_witness :
  run (WebApp.api_device_code (Sample.flow 7) (JObj Cases.start_request))
      Sample.w =
  (Ok (DeviceBody "S" (JStr "https://x") (JStr "U1") (JStr "enter U1"), 200),
   remember "S"
     (granted_session (JStr "abc")
        [("device_code", JStr "d1"); ("user_code", JStr "U1");
         ("verification_uri", JStr "https://x");
         ("message", JStr "enter U1"); ("interval", JNum 5);
         ("expires_in", JNum 900)] (JStr "d1") 907%Q)
     (device_code_request (JStr "abc") (JStr DEFAULT_SCOPE)) Sample.w).
Proof.
  apply (start_stores_session (Sample.flow 7) Cases.start_request _ Sample.w
           Sample.grant_reply (JStr "d1") (JStr "https://x") (JStr "U1")
           (JStr "enter U1") 907%Q);
    [reflexivity | reflexivity | | reflexivity | reflexivity | reflexivity
    | reflexivity | reflexivity | vm_compute; reflexivity].
  unfold is_4xx_5xx. simpl. lia.
Defined.

(** A start whose deadline cannot be computed, the sum of the clock and
    [expires_in] raising [TypeError] or [OverflowError], answers 500 with
    that exception and has stored nothing. *)
Lemma start_deadline_error (e : env) (o dev : list (string * json))
    (w : world) (r : response) (dc : json) (ex : exn) :
  let c := requested_client o in
  let q := device_code_request c (requested_scope o) in
  truthy c = true ->
  provider e (net_log w) q = Sent r ->
  ~ is_4xx_5xx r ->
  parsed r = Some (JObj dev) ->
  dict_get "device_code" dev = Some dc ->
  float_plus (the_machine w) (time_time e)
    (default (JNum 900) (dict_get "expires_in" dev)) = Raise ex ->
  run (WebApp.api_device_code e (JObj o)) w = (failed ex, log_request q w).
Proof.
  intros c q Hc Hp Hs Hj Hdc Hea. subst c q.
  unfold requested_client, requested_scope in *.
  apply not_4xx_5xx in Hs.
  assert (is_Exception ex = true) as Hex.
  { unfold float_plus in Hea.
    destruct (default (JNum 900) (dict_get "expires_in" dev)) as [|b|n| | |];
      try (injection Hea as <-; reflexivity).
    - destruct (float_add _ _ _); [discriminate|].
      injection Hea as <-. reflexivity.
    - destruct (float_add _ _ _); [discriminate|].
      injection Hea as <-. reflexivity. }
  unfold run, WebApp.api_device_code, WebApp.get_device_code. munfold. simpl.
  rewrite Hc. simpl. rewrite Hp, Hs, Hj. simpl.
  rewrite Hdc. simpl. rewrite Hea. simpl. rewrite Hex. reflexivity.
Qed.

(** On a machine with IEEE doubles, an [expires_in] of 10^309, an integer
    too large to be made a float: 500, and no session stored. *)
Example start_lifetime_too_large :
  let out := run (WebApp.api_device_code
                    (Sample.always 7
                       (Sent (Cases.grant_for (JNum (inject_Z (10 ^ 309))))))
                    (JObj Cases.start_request)) Sample.empty_world in
  fst out = failed OverflowError /\ session_file (snd out) = None.
Proof. vm_compute. split; reflexivity. Qed.

(** On that machine, a start at clock 0.1 with [expires_in] 0.2 stores the
    rounded sum 0.30000000000000004 as deadline, and a poll made at that
    very clock is not past it: the provider is asked and the token handed
    out. *)
Example poll_at_rounded_deadline :
  let w0 := snd (run (WebApp.api_device_code
                        (Sample.always Cases.double_0_1
                           (Sent (Cases.grant_for (JNum Cases.double_0_2))))
                        (JObj Cases.start_request)) Sample.empty_world) in
  expires_at <$> stored w0 !! "S2" = Some Cases.double_0_3 /\
  fst (run (WebApp.api_poll_token
              (Sample.always Cases.double_0_3 (Sent Sample.token_reply))
              "S2") w0)
  = Ok (TokenBody (JStr "tok") JNull JNull JNull, 200).
Proof. vm_compute. split; reflexivity. Qed.

(** X2. A start whose request to the provider fails, by a transport
    failure, by a 4xx or 5xx status or by a body that is not JSON, answers
    500 with the text of the exception and leaves the session file as it
    was: one request was sent and no session was stored. *)
Theorem start_provider_failure (e : env) (o : list (string * json))
    (w : world) :
  let c := requested_client o in
  let q := device_code_request c (requested_scope o) in
  truthy c = true ->
  (forall msg,
      provider e (net_log w) q = Failed msg ->
      run (WebApp.api_device_code e (JObj o)) w
      = (failed (RequestException msg), log_request q w)) /\
  (forall r,
      provider e (net_log w) q = Sent r -> is_4xx_5xx r ->
      run (WebApp.api_device_code e (JObj o)) w
      = (failed (HTTPError r), log_request q w)) /\
  (forall r,
      provider e (net_log w) q = Sent r -> ~ is_4xx_5xx r ->
      parsed r = None ->
      run (WebApp.api_device_code e (JObj o)) w
      = (failed (JSONDecodeError r), log_request q w)) /\
  session_file (log_request q w) = session_file w.
Proof.
  intros c q Hc. subst c q. unfold requested_client, requested_scope in *.
  split; [|split; [|split; [|reflexivity]]].
  - intros msg Hp.
    unfold run, WebApp.api_device_code, WebApp.get_device_code. munfold. simpl.
    rewrite Hc. simpl. rewrite Hp. reflexivity.
  - intros r Hp Hs. apply raise_for_status_4xx_5xx in Hs.
    unfold run, WebApp.api_device_code, WebApp.get_device_code. munfold. simpl.
    rewrite Hc. simpl. rewrite Hp, Hs. reflexivity.
  - intros r Hp Hs Hj. apply not_4xx_5xx in Hs.
    unfold run, WebApp.api_device_code, WebApp.get_device_code. munfold. simpl.
    rewrite Hc. simpl. rewrite Hp, Hs, Hj. reflexivity.
Qed.

Lemma start_provider_failure_witness :
  run (WebApp.api_device_code
         (Sample.always 7 (Sent Cases.throttled_reply))
         (JObj Cases.start_request)) Sample.w
  = (failed (HTTPError Cases.throttled_reply),
     log_request (device_code_request (JStr "abc") (JStr DEFAULT_SCOPE))
       Sample.w).
Proof.
  pose proof (start_provider_failure
                (Sample.always 7 (Sent Cases.throttled_reply))
                Cases.start_request Sample.w eq_refl) as (_ & H45 & _).
  apply (H45 Cases.throttled_reply); [reflexivity|].
  unfold is_4xx_5xx. simpl. lia.
Defined.

(** X3. The start view saves the session before it builds its answer:
    when the grant has the device code but lacks one of
    [verification_uri], [user_code] and [message], the view answers 500
    with the [KeyError] of the first of the three, in that order, that is
    missing, and the session is in the store all the same. *)
Theorem start_missing_display_field (e : env) (o dev : list (string * json))
    (w : world) (r : response) (dc : json) (ea : Q) :
  let c := requested_client o in
  let q := device_code_request c (requested_scope o) in
  let after := remember (uuid4 e) (granted_session c dev dc ea) q w in
  truthy c = true ->
  provider e (net_log w) q = Sent r ->
  ~ is_4xx_5xx r ->
  parsed r = Some (JObj dev) ->
  dict_get "device_code" dev = Some dc ->
  float_plus (the_machine w) (time_time e)
    (default (JNum 900) (dict_get "expires_in" dev)) = Ok ea ->
  (dict_get "verification_uri" dev = None ->
   run (WebApp.api_device_code e (JObj o)) w
   = (failed (KeyError "verification_uri"), after)) /\
  (dict_get "verification_uri" dev <> None ->
   dict_get "user_code" dev = None ->
   run (WebApp.api_device_code e (JObj o)) w
   = (failed (KeyError "user_code"), after)) /\
  (dict_get "verification_uri" dev <> None ->
   dict_get "user_code" dev <> None ->
   dict_get "message" dev = None ->
   run (WebApp.api_device_code e (JObj o)) w
   = (failed (KeyError "message"), after)) /\
  stored after !! uuid4 e = Some (granted_session c dev dc ea).
Proof.
  intros c q after Hc Hp Hs Hj Hdc Hea. subst c q after.
  unfold requested_client, requested_scope in *.
  apply not_4xx_5xx in Hs.
  unfold run, WebApp.api_device_code, WebApp.get_device_code. munfold. simpl.
  rewrite Hc. simpl. rewrite Hp, Hs, Hj. simpl.
  rewrite Hdc. simpl. rewrite Hea. simpl.
  split; [|split; [|split]].
  - intros ->. reflexivity.
  - intros Hvu ->. destruct (dict_get "verification_uri" dev); [|contradiction].
    reflexivity.
  - intros Hvu Huc ->.
    destruct (dict_get "verification_uri" dev); [|contradiction].
    destruct (dict_get "user_code" dev); [|contradiction].
    reflexivity.
  - unfold stored, remember. simpl. apply lookup_insert_eq.
Qed.

Lemma start_missing_display_field_witness :
  run (WebApp.api_device_code
         (Sample.always 7 (Sent Cases.grant_without_message))
         (JObj Cases.start_request)) Sample.empty_world =
  (failed (KeyError "message"),
   remember "S2"
     (granted_session (JStr "abc")
        [("device_code", JStr "d1"); ("user_code", JStr "U1");
         ("verification_uri", JStr "https://x")] (JStr "d1") 907%Q)
     (device_code_request (JStr "abc") (JStr DEFAULT_SCOPE))
     Sample.empty_world).
Proof.
  assert (~ is_4xx_5xx Cases.grant_without_message) as Hs.
  { unfold is_4xx_5xx. simpl. lia. }
  assert (float_plus (the_machine Sample.empty_world) 7
            (default (JNum 900)
               (dict_get "expires_in"
                  [("device_code", JStr "d1"); ("user_code", JStr "U1");
                   ("verification_uri", JStr "https://x")]))
          = Ok 907%Q) as Hea.
  { vm_compute. reflexivity. }
  destruct (start_missing_display_field
              (Sample.always 7 (Sent Cases.grant_without_message))
              Cases.start_request
              [("device_code", JStr "d1"); ("user_code", JStr "U1");
               ("verification_uri", JStr "https://x")]
              Sample.empty_world Cases.grant_without_message (JStr "d1")
              907%Q eq_refl eq_refl Hs eq_refl eq_refl Hea)
    as (_ & _ & Hmsg & _).
  apply Hmsg; [discriminate | discriminate | reflexivity].
Defined.

(** X4. Whatever the request and whatever the provider answers, the
    start view touches no session but the one under the identifier it
    drew, sends at most one request, and that one to the device-code
    endpoint, and never sleeps. *)
Theorem start_frame (e : env) (data : json) (w : world) :
  let w' := snd (run (WebApp.api_device_code e data) w) in
  (forall k, k <> uuid4 e -> stored w' !! k = stored w !! k) /\
  (net_log w' = net_log w \/
   exists c sc : json,
     net_log w' = (net_log w ++ [device_code_request c sc])%list) /\
  slept w' = slept w.
Proof.
  intros w'. subst w'.
  unfold run, WebApp.api_device_code, WebApp.get_device_code. munfold.
  unfold py_get, py_get_default, stored. simpl.
  destruct data as [| | | | |o]; simpl; try solve [framed].
  destruct (truthy (default JNull (dict_get "client_id" o))); simpl;
    [|solve [framed]].
  set (c := default JNull (dict_get "client_id" o)).
  set (sc := default (JStr DEFAULT_SCOPE) (dict_get "scope" o)).
  assert (forall k (sd : session_data) (m : gmap string session_data),
             k <> uuid4 e -> <[uuid4 e := sd]> m !! k = m !! k) as Hins.
  { intros k sd m Hk. apply lookup_insert_ne. congruence. }
  destruct (provider e (net_log w) (device_code_request c sc)) as [r|msg];
    simpl; [|solve [framed]].
  destruct ((400 <=? status_code r) && (status_code r <? 600)); simpl;
    [solve [framed]|].
  destruct (parsed r) as [device|]; simpl; [|solve [framed]].
  destruct device as [| | | | |dev]; simpl; try solve [framed].
  destruct (dict_get "device_code" dev) as [dc|]; simpl; [|solve [framed]].
  destruct (float_plus _ _ _) as [ea|]; simpl; [|solve [framed]].
  destruct (dict_get "verification_uri" dev); simpl; [|solve [framed]].
  destruct (dict_get "user_code" dev); simpl; [|solve [framed]].
  destruct (dict_get "message" dev); simpl; solve [framed].
Qed.

(** X5. A poll never adds a session and never changes one: every session
    in the store after the poll was there before with the same client,
    device code, interval and deadline; only the polled session can have
    gone, and the poll never sleeps. *)
Theorem poll_store_shrinks (e : env) (session_id : string) (w : world) :
  let w' := snd (run (WebApp.api_poll_token e session_id) w) in
  stored w' ⊆ stored w /\
  (forall k, k <> session_id -> stored w' !! k = stored w !! k) /\
  slept w' = slept w.
Proof.
  intros w'. subst w'.
  assert (forall q, stored (forget session_id (log_request q w)) ⊆ stored w
                    /\ (forall k, k <> session_id ->
                          stored (forget session_id (log_request q w)) !! k
                          = stored w !! k)) as Hforget.
  { intros q. unfold stored, forget. simpl. split.
    - apply delete_subseteq.
    - intros k Hk. apply lookup_delete_ne. congruence. }
  destruct (stored w !! session_id) as [sd|] eqn:H.
  - destruct (py_gt (time_time e) (expires_at sd)) eqn:Hgt.
    + rewrite (poll_expired e session_id w sd H Hgt). simpl.
      split; [apply delete_subseteq|]. split; [|reflexivity].
      intros k Hk. apply lookup_delete_ne. congruence.
    + rewrite (poll_live e session_id w sd H Hgt). cbv zeta.
      destruct (fst (WebApp.poll_for_token _ _ _ _ _)) as [token|ex].
      * destruct (truthy token); simpl.
        -- destruct (Hforget (poll_request sd)). auto.
        -- auto.
      * simpl. destruct (Hforget (poll_request sd)). auto.
  - rewrite (poll_unknown e session_id w H). simpl. auto.
Qed.

(** X6. A poll sends exactly one request, the token request made of the
    stored client and device code, when the session is stored and the
    clock is not past its deadline; in every other case it sends none. *)
Theorem poll_requests (e : env) (session_id : string) (w : world) :
  net_log (snd (run (WebApp.api_poll_token e session_id) w)) =
  match stored w !! session_id with
  | Some sd =>
      if py_gt (time_time e) (expires_at sd)
      then net_log w
      else (net_log w ++ [token_request (client_id sd) (device_code sd)])%list
  | None => net_log w
  end.
Proof.
  destruct (stored w !! session_id) as [sd|] eqn:H.
  - destruct (py_gt (time_time e) (expires_at sd)) eqn:Hgt.
    + rewrite (poll_expired e session_id w sd H Hgt). reflexivity.
    + rewrite (poll_live e session_id w sd H Hgt). cbv zeta.
      destruct (fst (WebApp.poll_for_token _ _ _ _ _)) as [token|ex];
        [destruct (truthy token)|]; reflexivity.
  - rewrite (poll_unknown e session_id w H). reflexivity.
Qed.

(** X7. A 200 answer whose body is JSON but not truthy (null, false, 0,
    the empty string, list or object) is taken for "still waiting": the
    poll answers pending and keeps the session. *)
Theorem poll_falsy_token_pending (e : env) (session_id : string) (w : world)
    (sd : session_data) (r : response) (j : json) :
  stored w !! session_id = Some sd ->
  (time_time e <= expires_at sd)%Q ->
  provider e (net_log w) (poll_request sd) = Sent r ->
  status_code r = 200 ->
  parsed r = Some j ->
  truthy j = false ->
  run (WebApp.api_poll_token e session_id) w
  = (pending, log_request (poll_request sd) w).
Proof.
  intros H Hle Hp Hc Hj Hf. apply py_gt_false in Hle.
  rewrite (poll_live e session_id w sd H Hle). cbv zeta.
  rewrite (poll_for_token_200 e (client_id sd) (device_code sd) (interval sd)
             (State w (stored w)) r j Hp Hc Hj).
  rewrite Hf. reflexivity.
Qed.

Lemma poll_falsy_token_pending_witness :
  run (WebApp.api_poll_token (Sample.always 50 (Sent Cases.null_reply)) "S")
      Sample.w
  = (pending, log_request (poll_request Sample.sd) Sample.w).
Proof.
  apply (poll_falsy_token_pending _ "S" Sample.w Sample.sd Cases.null_reply
           JNull); try reflexivity.
  discriminate.
Defined.

(** X8. A 200 answer whose body is truthy but has no [access_token] (an
    object without the key, or a list, string, number or [true]) costs
    the session all the same: it is deleted and saved before the token is
    read, the handler's own [del] then fails, and the view ends on that
    [KeyError] instead of an answer. *)
Theorem poll_token_without_key (e : env) (session_id : string) (w : world)
    (sd : session_data) (r : response) (j : json) (ex : exn) :
  stored w !! session_id = Some sd ->
  (time_time e <= expires_at sd)%Q ->
  provider e (net_log w) (poll_request sd) = Sent r ->
  status_code r = 200 ->
  parsed r = Some j ->
  truthy j = true ->
  py_index j "access_token" = Raise ex ->
  run (WebApp.api_poll_token e session_id) w
  = (Raise (KeyError session_id),
     forget session_id (log_request (poll_request sd) w)).
Proof.
  intros H Hle Hp Hc Hj Ht Hidx. apply py_gt_false in Hle.
  rewrite (poll_live e session_id w sd H Hle). cbv zeta.
  rewrite (poll_for_token_200 e (client_id sd) (device_code sd) (interval sd)
             (State w (stored w)) r j Hp Hc Hj).
  rewrite Ht. unfold token_answer.
  destruct j as [| | | | |o]; try reflexivity.
  simpl in Hidx. destruct (dict_get "access_token" o); [discriminate|].
  reflexivity.
Qed.

Lemma poll_token_without_key_witness :
  run (WebApp.api_poll_token (Sample.always 50 (Sent Cases.list_reply)) "S")
      Sample.w
  = (Raise (KeyError "S"),
     forget "S" (log_request (poll_request Sample.sd) Sample.w)).
Proof.
  apply (poll_token_without_key _ "S" Sample.w Sample.sd Cases.list_reply
           (JArr [JNum 1]) TypeError); try reflexivity.
  discriminate.
Defined.

(** X9. A 400 answer whose body is a JSON object with any other [error]
    than the two waiting ones, or with none, ends the flow: the session is
    deleted and the poll answers 500 with the "OAuth error" exception that
    carries the provider's body. *)
Theorem poll_denied (e : env) (session_id : string) (w : world)
    (sd : session_data) (r : response) (o : list (string * json)) :
  stored w !! session_id = Some sd ->
  (time_time e <= expires_at sd)%Q ->
  provider e (net_log w) (poll_request sd) = Sent r ->
  status_code r = 400 ->
  parsed r = Some (JObj o) ->
  in_pending_errors (default JNull (dict_get "error" o)) = false ->
  run (WebApp.api_poll_token e session_id) w
  = (failed (OAuthError (JObj o)),
     forget session_id (log_request (poll_request sd) w)).
Proof.
  intros H Hle Hp Hc Hj Herr. apply py_gt_false in Hle.
  apply (poll_live_raise e session_id w sd _ H Hle).
  unfold WebApp.poll_for_token. munfold. simpl.
  unfold poll_request in Hp. rewrite Hp, Hc, Hj. simpl.
  rewrite Herr. reflexivity.
Qed.

Lemma poll_denied_witness :
  run (WebApp.api_poll_token (Sample.always 50 (Sent Cases.denied_reply)) "S")
      Sample.w
  = (failed (OAuthError (JObj [("error", JStr "authorization_declined")])),
     forget "S" (log_request (poll_request Sample.sd) Sample.w)).
Proof.
  apply (poll_denied _ "S" Sample.w Sample.sd Cases.denied_reply
           [("error", JStr "authorization_declined")]); try reflexivity.
  discriminate.
Defined.

(** X10. An answer with any status other than 200 and 400 (401, 429,
    500, a redirect, ...) ends the flow whatever its body: the session is
    deleted and the poll answers 500 with the "Unexpected error" exception
    that carries the response text. *)
Theorem poll_unexpected_status (e : env) (session_id : string) (w : world)
    (sd : session_data) (r : response) :
  stored w !! session_id = Some sd ->
  (time_time e <= expires_at sd)%Q ->
  provider e (net_log w) (poll_request sd) = Sent r ->
  status_code r <> 200 ->
  status_code r <> 400 ->
  run (WebApp.api_poll_token e session_id) w
  = (failed (UnexpectedError (text r)),
     forget session_id (log_request (poll_request sd) w)).
Proof.
  intros H Hle Hp H200 H400. apply py_gt_false in Hle.
  apply (poll_live_raise e session_id w sd _ H Hle).
  unfold WebApp.poll_for_token. munfold. simpl.
  unfold poll_request in Hp. rewrite Hp.
  apply Z.eqb_neq in H200, H400. rewrite H200, H400. reflexivity.
Qed.

Lemma poll_unexpected_status_witness :
  run (WebApp.api_poll_token (Sample.always 50 (Sent Cases.throttled_reply))
         "S") Sample.w
  = (failed (UnexpectedError "Too Many Requests"),
     forget "S" (log_request (poll_request Sample.sd) Sample.w)).
Proof.
  apply (poll_unexpected_status _ "S" Sample.w Sample.sd
           Cases.throttled_reply); try reflexivity; discriminate.
Defined.


(** X11. Start, then poll.  After a start that went through, the session
    is stored under the identifier of the answer, its deadline being the
    float the machine computed for clock + [expires_in]; a poll of that
    identifier made with the clock past that float expires it without
    asking the provider, and a poll made no later sends the token request
    made of the client of the start request and the device code of the
    grant. *)
Theorem start_then_poll (e e' : env) (o dev : list (string * json))
    (w : world) (r : response) (dc vu uc msg : json) (ea : Q) :
  let c := requested_client o in
  let q := device_code_request c (requested_scope o) in
  truthy c = true ->
  provider e (net_log w) q = Sent r ->
  ~ is_4xx_5xx r ->
  parsed r = Some (JObj dev) ->
  dict_get "device_code" dev = Some dc ->
  dict_get "verification_uri" dev = Some vu ->
  dict_get "user_code" dev = Some uc ->
  dict_get "message" dev = Some msg ->
  float_plus (the_machine w) (time_time e)
    (default (JNum 900) (dict_get "expires_in" dev)) = Ok ea ->
  let w0 := snd (run (WebApp.api_device_code e (JObj o)) w) in
  stored w0 !! uuid4 e = Some (granted_session c dev dc ea) /\
  ((ea < time_time e')%Q -> expires e' (uuid4 e) w0) /\
  ((time_time e' <= ea)%Q ->
   net_log (snd (run (WebApp.api_poll_token e' (uuid4 e)) w0))
   = (net_log w ++ [q; token_request c dc])%list).
Proof.
  intros c q Hc Hp Hs Hj Hdc Hvu Huc Hmsg Hea w0. subst w0.
  rewrite (start_granted e o dev w r dc vu uc msg ea Hc Hp Hs Hj Hdc Hvu Huc
             Hmsg Hea).
  fold c q. simpl.
  assert (stored (remember (uuid4 e) (granted_session c dev dc ea) q w)
            !! uuid4 e = Some (granted_session c dev dc ea)) as Hst.
  { unfold stored, remember. simpl. apply lookup_insert_eq. }
  split; [exact Hst|]. split.
  - intros Hlt. apply py_gt_true in Hlt.
    apply (poll_expired e' (uuid4 e) _ _ Hst Hlt).
  - intros Hle. apply py_gt_false in Hle.
    rewrite (poll_live e' (uuid4 e) _ _ Hst Hle). cbv zeta.
    destruct (fst (WebApp.poll_for_token _ _ _ _ _)) as [token|ex];
      [destruct (truthy token)|]; simpl; rewrite <- app_assoc; reflexivity.
Qed.

Lemma start_then_poll_witness :
  let w0 := snd (run (WebApp.api_device_code (Sample.flow 7)
                        (JObj Cases.start_request)) Sample.empty_world) in
  stored w0 !! "S"
  = Some (SessionData (JStr "abc") (JStr "d1") (JNum 5) 907%Q) /\
  ((907 < 1000)%Q -> expires (Sample.flow 1000) "S" w0) /\
  ((1000 <= 907)%Q ->
   net_log (snd (run (WebApp.api_poll_token (Sample.flow 1000) "S") w0))
   = [device_code_request (JStr "abc") (JStr DEFAULT_SCOPE);
      token_request (JStr "abc") (JStr "d1")]).
Proof.
  apply (start_then_poll (Sample.flow 7) (Sample.flow 1000)
           Cases.start_request
           [("device_code", JStr "d1"); ("user_code", JStr "U1");
            ("verification_uri", JStr "https://x");
            ("message", JStr "enter U1"); ("interval", JNum 5);
            ("expires_in", JNum 900)]
           Sample.empty_world Sample.grant_reply
           (JStr "d1") (JStr "https://x") (JStr "U1") (JStr "enter U1")
           907%Q);
    [reflexivity | reflexivity | | reflexivity | reflexivity | reflexivity
    | reflexivity | reflexivity | vm_compute; reflexivity].
  unfold is_4xx_5xx. simpl. lia.
Defined.

(** ** Further properties of the blocking loop *)

(** The state after one more request and one more sleep. *)
Lemma time_sleep_records (iv : Q) (s : state) :
  sleep_fits (the_machine (the_world s)) iv = true ->
  py_gt 0 iv = false ->
  time_sleep (JNum iv) s
  = (Ok tt,
     State (World (session_file (the_world s)) (net_log (the_world s))
              (slept (the_world s) ++ [iv]) (the_machine (the_world s)))
           (active_sessions s)).
Proof. intros Hfit Hiv. unfold time_sleep. rewrite Hfit, Hiv. reflexivity. Qed.

(** A duration the machine's [time.sleep] does not take ends the call on
    [OverflowError], before the test on its sign. *)
Lemma time_sleep_overflow (iv : Q) (s : state) :
  sleep_fits (the_machine (the_world s)) iv = false ->
  time_sleep (JNum iv) s = (Raise OverflowError, s).
Proof. intros Hfit. unfold time_sleep. rewrite Hfit. reflexivity. Qed.

Lemma cli_poll_step_waiting (e : env) (c d : json) (iv : Q) (fuel : nat)
    (s : state) :
  sleep_fits (the_machine (the_world s)) iv = true ->
  py_gt 0 iv = false ->
  waiting (provider e (net_log (the_world s)) (token_request c d)) ->
  Cli.poll_for_token (S fuel) e c d (JNum iv) s
  = Cli.poll_for_token fuel e c d (JNum iv)
      (State (World (session_file (the_world s))
                (net_log (the_world s) ++ [token_request c d])
                (slept (the_world s) ++ [iv]) (the_machine (the_world s)))
             (active_sessions s)).
Proof.
  intros Hfit Hiv (r & o & err & Hp & Hc & Hj & Herr & Hin).
  rewrite (cli_poll_waiting e c d (JNum iv) fuel s r o err Hp Hc Hj Herr Hin).
  unfold mbind, M_bind, bind.
  rewrite (time_sleep_records iv (posted (token_request c d) s) Hfit Hiv).
  reflexivity.
Qed.

(** The loop on a provider that keeps it waiting [n] times and then
    answers 200. *)
Lemma cli_poll_waits (e : env) (c d : json) (iv : Q) (r : response)
    (j : json) (n : nat) :
  py_gt 0 iv = false ->
  status_code r = 200 -> parsed r = Some j ->
  forall fuel s,
    sleep_fits (the_machine (the_world s)) iv = true ->
    (forall i, (i < n)%nat ->
       waiting (provider e (net_log (the_world s)
                              ++ repeat (token_request c d) i)
                  (token_request c d))) ->
    provider e (net_log (the_world s) ++ repeat (token_request c d) n)
      (token_request c d) = Sent r ->
    (n < fuel)%nat ->
    Cli.poll_for_token fuel e c d (JNum iv) s
    = (Ok (Some j),
       State (World (session_file (the_world s))
                (net_log (the_world s) ++ repeat (token_request c d) (S n))
                (slept (the_world s) ++ repeat iv n)
                (the_machine (the_world s)))
             (active_sessions s)).
Proof.
  intros Hiv Hc Hj. induction n as [|n IH]; intros fuel s Hfit Hwait Hp Hfuel.
  - destruct fuel as [|fuel]; [lia|].
    simpl in Hp. rewrite app_nil_r in Hp.
    rewrite cli_poll_unfold. cbv zeta. rewrite Hp, Hc, Hj. simpl.
    rewrite app_nil_r. reflexivity.
  - destruct fuel as [|fuel]; [lia|].
    rewrite (cli_poll_step_waiting e c d iv fuel s Hfit Hiv).
    + rewrite IH.
      * simpl. rewrite <- !app_assoc. reflexivity.
      * exact Hfit.
      * intros i Hi. simpl. rewrite <- app_assoc. apply (Hwait (S i)). lia.
      * simpl. rewrite <- app_assoc. exact Hp.
      * lia.
    + specialize (Hwait 0%nat). simpl in Hwait. rewrite app_nil_r in Hwait.
      apply Hwait. lia.
Qed.

(** X12. The blocking loop, with an interval that is not negative and
    that the machine's [time.sleep] takes, on a provider that answers one
    of the two waiting errors to the first [n] attempts and 200 with a
    JSON body to the next, returns that body after [n + 1] requests and
    [n] sleeps of [interval] seconds each.  With an interval the
    machine's [time.sleep] does not take, the loop ends on
    [OverflowError] at the first waiting answer, after one request and no
    sleep. *)
Theorem cli_poll_returns_after_waiting (e : env) (c d : json) (iv : Q)
    (r : response) (j : json) (n fuel : nat) (w : world) :
  let q := token_request c d in
  (0 <= iv)%Q ->
  (forall i, (i < n)%nat -> waiting (provider e (net_log w ++ repeat q i) q)) ->
  provider e (net_log w ++ repeat q n) q = Sent r ->
  status_code r = 200 -> parsed r = Some j ->
  (n < fuel)%nat ->
  (sleep_fits (the_machine w) iv = true ->
   run (Cli.poll_for_token fuel e c d (JNum iv)) w
   = (Ok (Some j),
      World (session_file w) (net_log w ++ repeat q (S n))
        (slept w ++ repeat iv n) (the_machine w))) /\
  (sleep_fits (the_machine w) iv = false -> (0 < n)%nat ->
   run (Cli.poll_for_token fuel e c d (JNum iv)) w
   = (Raise OverflowError, log_request q w)).
Proof.
  intros q Hiv Hwait Hp Hc Hj Hfuel. subst q. apply py_gt_false in Hiv.
  unfold run. split.
  - intros Hfit.
    rewrite (cli_poll_waits e c d iv r j n Hiv Hc Hj fuel (State w ∅));
      auto.
  - intros Hfit Hn. destruct fuel as [|fuel]; [lia|].
    destruct (Hwait 0%nat Hn) as (r0 & o & err & Hp0 & Hc0 & Hj0 & Herr & Hin).
    simpl in Hp0. rewrite app_nil_r in Hp0.
    rewrite (cli_poll_waiting e c d (JNum iv) fuel (State w ∅) r0 o err
               Hp0 Hc0 Hj0 Herr Hin).
    unfold mbind, M_bind, bind.
    rewrite (time_sleep_overflow iv (posted (token_request c d) (State w ∅))
               Hfit).
    reflexivity.
Qed.

Lemma cli_poll_returns_after_waiting_witness :
  run (Cli.poll_for_token 5 (Cases.waits 3) (JStr "abc") (JStr "d1") (JNum 5))
      Sample.empty_world
  = (Ok (Some (JObj [("access_token", JStr "tok")])),
     World None (repeat (token_request (JStr "abc") (JStr "d1")) 4)
       (repeat 5%Q 3) (the_machine Sample.empty_world)) /\
  run (Cli.poll_for_token 5 (Cases.waits 3) (JStr "abc") (JStr "d1")
         (JNum (10 ^ 10)%Q)) Sample.empty_world
  = (Raise OverflowError,
     log_request (token_request (JStr "abc") (JStr "d1")) Sample.empty_world).
Proof.
  assert (forall i, (i < 3)%nat ->
            waiting (provider (Cases.waits 3)
                       (net_log Sample.empty_world
                          ++ repeat (token_request (JStr "abc") (JStr "d1")) i)
                       (token_request (JStr "abc") (JStr "d1")))) as Hwait.
  { intros i Hi.
    exists Sample.pending_reply, [("error", JStr "authorization_pending")],
      (JStr "authorization_pending").
    destruct i as [|[|[|i]]]; [| | |lia]; repeat split; reflexivity. }
  split.
  - apply (cli_poll_returns_after_waiting (Cases.waits 3) (JStr "abc")
             (JStr "d1") 5%Q Sample.token_reply
             (JObj [("access_token", JStr "tok")]) 3 5 Sample.empty_world);
      [discriminate | exact Hwait | reflexivity | reflexivity | reflexivity
      | lia | vm_compute; reflexivity].
  - apply (cli_poll_returns_after_waiting (Cases.waits 3) (JStr "abc")
             (JStr "d1") (10 ^ 10)%Q Sample.token_reply
             (JObj [("access_token", JStr "tok")]) 3 5 Sample.empty_world);
      [discriminate | exact Hwait | reflexivity | reflexivity | reflexivity
      | lia | vm_compute; reflexivity | lia].
Defined.

(** X13. The blocking loop has no deadline of its own: with an interval
    that is not negative and that the machine's [time.sleep] takes, on a
    provider that answers a waiting error to every attempt, after any
    number of attempts it has sent that many requests, slept that many
    times [interval] seconds, and is still running. *)
Theorem cli_poll_never_gives_up (e : env) (c d : json) (iv : Q) (w : world) :
  let q := token_request c d in
  (0 <= iv)%Q ->
  sleep_fits (the_machine w) iv = true ->
  (forall log, waiting (provider e log q)) ->
  forall fuel,
    run (Cli.poll_for_token fuel e c d (JNum iv)) w
    = (Ok None,
       World (session_file w) (net_log w ++ repeat q fuel)
         (slept w ++ repeat iv fuel) (the_machine w)).
Proof.
  intros q Hiv Hfit Hwait fuel. subst q. apply py_gt_false in Hiv. unfold run.
  assert (forall s,
            sleep_fits (the_machine (the_world s)) iv = true ->
            Cli.poll_for_token fuel e c d (JNum iv) s
            = (Ok None,
               State (World (session_file (the_world s))
                        (net_log (the_world s)
                           ++ repeat (token_request c d) fuel)
                        (slept (the_world s) ++ repeat iv fuel)
                        (the_machine (the_world s)))
                     (active_sessions s))) as Hrun.
  { induction fuel as [|fuel IH]; intros s Hs.
    - simpl. rewrite !app_nil_r. destruct s as [[? ? ? ?] ?]. reflexivity.
    - rewrite (cli_poll_step_waiting e c d iv fuel s Hs Hiv (Hwait _)).
      rewrite IH; [|exact Hs]. simpl. rewrite <- !app_assoc. reflexivity. }
  rewrite Hrun; [reflexivity|exact Hfit].
Qed.

Lemma cli_poll_never_gives_up_witness :
  run (Cli.poll_for_token 4 Cases.stalls (JStr "abc") (JStr "d1") (JNum 5))
      Sample.empty_world
  = (Ok None,
     World None (repeat (token_request (JStr "abc") (JStr "d1")) 4)
       (repeat 5%Q 4) (the_machine Sample.empty_world)).
Proof.
  apply (cli_poll_never_gives_up Cases.stalls (JStr "abc") (JStr "d1") 5%Q
           Sample.empty_world).
  - discriminate.
  - vm_compute. reflexivity.
  - intros log.
    exists Sample.pending_reply, [("error", JStr "authorization_pending")],
      (JStr "authorization_pending").
    repeat split; reflexivity.
Defined.

(** X14. The blocking loop leaves through [sys.exit(1)], after one
    request and no sleep, when the provider answers with a status other
    than 200 and 400, or with 400 and a JSON object whose [error] is not
    a waiting one; and no [except Exception] around the loop catches
    that exit. *)
Theorem cli_poll_exits (e : env) (c d iv : json) (fuel : nat) (w : world)
    (r : response) (handler : exn -> M (option json)) :
  let q := token_request c d in
  provider e (net_log w) q = Sent r ->
  (status_code r <> 200 /\ status_code r <> 400) \/
  (status_code r = 400 /\
   exists o, parsed r = Some (JObj o) /\
             in_pending_errors (default JNull (dict_get "error" o)) = false) ->
  run (Cli.poll_for_token (S fuel) e c d iv) w
  = (Raise (SystemExit 1), log_request q w) /\
  run (try_except (Cli.poll_for_token (S fuel) e c d iv) handler) w
  = (Raise (SystemExit 1), log_request q w).
Proof.
  intros q Hp Hcase. subst q.
  assert (Cli.poll_for_token (S fuel) e c d iv (State w ∅)
          = (Raise (SystemExit 1),
             posted (token_request c d) (State w ∅))) as Hrun.
  { rewrite cli_poll_unfold. cbv zeta. simpl. rewrite Hp.
    destruct Hcase as [[H200 H400] | [H400 (o & Hj & Herr)]].
    - apply Z.eqb_neq in H200, H400. rewrite H200, H400. reflexivity.
    - rewrite H400, Hj. simpl. rewrite Herr. reflexivity. }
  unfold run, try_except. rewrite Hrun. simpl. auto.
Qed.

Lemma cli_poll_exits_witness :
  run (Cli.poll_for_token 3 (Sample.always 0 (Sent Cases.denied_reply))
         (JStr "abc") (JStr "d1") (JNum 5)) Sample.empty_world
  = (Raise (SystemExit 1),
     log_request (token_request (JStr "abc") (JStr "d1")) Sample.empty_world).
Proof.
  apply (cli_poll_exits (Sample.always 0 (Sent Cases.denied_reply))
           (JStr "abc") (JStr "d1") (JNum 5) 2 Sample.empty_world
           Cases.denied_reply (fun _ => ret None)).
  - reflexivity.
  - right. split; [reflexivity|].
    exists [("error", JStr "authorization_declined")]. split; reflexivity.
Defined.

(** ** The catalogue *)

Lemma nonempty_true (s : string) : nonempty s = true <-> s <> "".
Proof.
  unfold nonempty. rewrite negb_true_iff. apply String.eqb_neq.
Qed.

Lemma load_row_some (row : list (string * string)) (a : Catalog.app) :
  Catalog.load_row row = Some a ->
  Catalog.row_get "AppId" row = Some (Catalog.client_id a) /\
  Catalog.row_get "AppDisplayName" row = Some (Catalog.name a) /\
  nonempty (Catalog.client_id a) = true /\
  nonempty (Catalog.name a) = true /\
  Catalog.scope a = DEFAULT_SCOPE.
Proof.
  unfold Catalog.load_row.
  destruct (Catalog.row_get "AppId" row) as [app_id|]; [|discriminate].
  destruct (Catalog.row_get "AppDisplayName" row) as [display_name|];
    [|discriminate].
  destruct (nonempty app_id) eqn:Hid; [|discriminate].
  destruct (nonempty display_name) eqn:Hname; [|discriminate].
  simpl. intros [= <-]. simpl. auto.
Qed.

Lemma loaded_from_row (src : Catalog.csv_source) (a : Catalog.app) :
  a ∈ Catalog.load_microsoft_apps src ->
  exists rows broke row,
    src = Catalog.Read rows broke /\ row ∈ rows /\
    Catalog.load_row row = Some a.
Proof.
  destruct src as [|rows broke]; simpl.
  - intros H. apply elem_of_nil in H. contradiction.
  - intros H. apply list_elem_of_omap in H as (row & Hrow & Hload).
    exists rows, broke, row. auto.
Qed.

(** X15. Every app loaded from the catalogue file has a client id and a
    name that are not empty, taken from the [AppId] and [AppDisplayName]
    columns of one row of the file, and the default scope; rows lacking
    either column, or with either empty, are left out. *)
Theorem loaded_apps_well_formed (src : Catalog.csv_source) (a : Catalog.app) :
  a ∈ Catalog.load_microsoft_apps src ->
  Catalog.client_id a <> "" /\
  Catalog.name a <> "" /\
  Catalog.scope a = DEFAULT_SCOPE /\
  exists rows broke row,
    src = Catalog.Read rows broke /\ row ∈ rows /\
    Catalog.row_get "AppId" row = Some (Catalog.client_id a) /\
    Catalog.row_get "AppDisplayName" row = Some (Catalog.name a).
Proof.
  intros H. apply loaded_from_row in H as (rows & broke & row & -> & Hin & Hl).
  apply load_row_some in Hl as (Hid & Hname & Hnid & Hnname & Hscope).
  apply nonempty_true in Hnid, Hnname.
  split; [exact Hnid|]. split; [exact Hnname|]. split; [exact Hscope|].
  exists rows, broke, row. auto.
Qed.

Lemma loaded_apps_well_formed_witness :
  let a := Catalog.App "Graph Explorer" "de8bc8b5" DEFAULT_SCOPE in
  let src := Catalog.Read
               [[("AppId", ""); ("AppDisplayName", "Nameless")];
                [("AppDisplayName", "Graph Explorer"); ("AppId", "de8bc8b5")]]
               true in
  Catalog.client_id a <> "" /\
  Catalog.name a <> "" /\
  Catalog.scope a = DEFAULT_SCOPE /\
  exists rows broke row,
    src = Catalog.Read rows broke /\ row ∈ rows /\
    Catalog.row_get "AppId" row = Some (Catalog.client_id a) /\
    Catalog.row_get "AppDisplayName" row = Some (Catalog.name a).
Proof.
  apply (loaded_apps_well_formed
           (Catalog.Read
              [[("AppId", ""); ("AppDisplayName", "Nameless")];
               [("AppDisplayName", "Graph Explorer"); ("AppId", "de8bc8b5")]]
              true)
           (Catalog.App "Graph Explorer" "de8bc8b5" DEFAULT_SCOPE)).
  simpl. apply list_elem_of_here.
Defined.

Lemma filter_sublist {A} (f : A -> bool) (l : list A) :
  sublist (List.filter f l) l.
Proof.
  induction l as [|x l IH]; simpl.
  - constructor.
  - destruct (f x); [apply sublist_skip | apply sublist_cons]; exact IH.
Qed.

Lemma search_apps_spec (py : str_methods) (apps : list Catalog.app)
    (query : string) (a : Catalog.app) :
  a ∈ Catalog.search_apps py apps query <->
  a ∈ apps /\ contains (lower py query) (lower py (Catalog.name a)) = true.
Proof.
  unfold Catalog.search_apps. rewrite !list_elem_of_In, filter_In. reflexivity.
Qed.

(** X16. The search route answers with at most 50 apps; they are apps of
    the catalogue file in the order of the file, and the lowered name of
    each contains the lowered query; a query that is absent or blank
    after stripping gets the empty list. *)
Theorem api_search_answer (py : str_methods) (q : option string)
    (src : Catalog.csv_source) :
  let query := strip py (default "" q) in
  let out := WebApi.api_search py q src in
  (length out <= 50)%nat /\
  sublist out (Catalog.load_microsoft_apps src) /\
  (forall a, a ∈ out ->
     contains (lower py query) (lower py (Catalog.name a)) = true) /\
  (query = "" -> out = []).
Proof.
  intros query out. subst out. unfold WebApi.api_search. fold query.
  destruct (nonempty query) eqn:Hq.
  - split; [rewrite length_take; lia|]. split; [|split].
    + etransitivity; [apply sublist_take|]. apply filter_sublist.
    + intros a Ha. apply elem_of_take in Ha as (i & Ha & _).
      apply list_elem_of_lookup_2 in Ha.
      apply search_apps_spec in Ha. tauto.
    + intros ->. discriminate Hq.
  - split; [simpl; lia|]. split; [apply sublist_nil_l|]. split; [|auto].
    intros a Ha. apply elem_of_nil in Ha. contradiction.
Qed.

Lemma api_search_answer_witness :
  contains (lower plain (strip plain "graph"))
    (lower plain (Catalog.name (Catalog.App "my graph" "id-2" DEFAULT_SCOPE)))
  = true.
Proof.
  destruct (api_search_answer plain (Some "graph")
              (Catalog.Read
                 [[("AppId", "id-1"); ("AppDisplayName", "teams")];
                  [("AppId", "id-2"); ("AppDisplayName", "my graph")]]
                 false)) as (_ & _ & Hmatch & _).
  apply Hmatch. simpl. apply list_elem_of_here.
Defined.


Lemma add_sorted_elem (x : string) (l : list string) (s : string) :
  s ∈ WebApi.add_sorted x l <-> s = x \/ s ∈ l.
Proof.
  induction l as [|y l IH]; simpl.
  - rewrite elem_of_cons, elem_of_nil. tauto.
  - destruct (String_as_OT.compare_spec x y) as [Heq|Hlt|Hgt].
    + change (x = y) in Heq. subst y. rewrite elem_of_cons. tauto.
    + rewrite elem_of_cons. tauto.
    + rewrite !elem_of_cons, IH. tauto.
Qed.

Lemma add_sorted_sorted (x : string) (l : list string) :
  StronglySorted String_as_OT.lt l ->
  StronglySorted String_as_OT.lt (WebApi.add_sorted x l).
Proof.
  induction 1 as [|y l Hsorted IH Hall]; simpl.
  - repeat constructor.
  - destruct (String_as_OT.compare_spec x y) as [Heq|Hlt|Hgt].
    + constructor; assumption.
    + constructor; [constructor; assumption|].
      constructor; [exact Hlt|].
      eapply Forall_impl; [exact Hall|].
      intros z Hz. simpl in Hz. etransitivity; eassumption.
    + constructor; [exact IH|].
      apply Forall_forall. intros z Hz.
      apply add_sorted_elem in Hz as [->|Hz]; [exact Hgt|].
      rewrite Forall_forall in Hall. apply Hall, Hz.
Qed.

Lemma sorted_set_sorted (l : list string) :
  StronglySorted String_as_OT.lt (WebApi.sorted_set l).
Proof.
  induction l as [|x l IH]; simpl; [constructor|].
  apply add_sorted_sorted, IH.
Qed.

Lemma sorted_set_elem (l : list string) (s : string) :
  s ∈ WebApi.sorted_set l <-> s ∈ l.
Proof.
  induction l as [|x l IH]; simpl; [reflexivity|].
  rewrite add_sorted_elem, elem_of_cons, IH. reflexivity.
Qed.

Lemma strictly_sorted_NoDup (l : list string) :
  StronglySorted String_as_OT.lt l -> NoDup l.
Proof.
  induction 1 as [|y l Hsorted IH Hall]; constructor; [|exact IH].
  intros Hin. rewrite Forall_forall in Hall. specialize (Hall y Hin).
  exact (irreflexivity String_as_OT.lt y Hall).
Qed.

(** X17. When the scope file is read to its end, the scopes route
    answers with a list in strictly increasing order, hence without
    repetition, that holds exactly what the lines of the file add for this
    client: for each line of three fields or more whose third field
    equals the client id up to letter case, the first field when it
    starts with "http" or ".", the second field otherwise.  When opening
    or reading the file fails the answer is the error alone. *)
Theorem api_scopes_answer (py : str_methods) (client_id : string)
    (lines : list string) :
  exists out,
    WebApi.api_scopes py client_id (WebApi.Lines lines None)
    = WebApi.Scopes out /\
    StronglySorted String_as_OT.lt out /\
    NoDup out /\
    (forall s, s ∈ out <->
       exists line scope resource client rest,
         line ∈ lines /\
         split py (strip py line) = scope :: resource :: client :: rest /\
         lower py client = lower py client_id /\
         s = (if String.prefix "http" scope || String.prefix "." scope
              then scope else resource)) /\
    (forall msg,
        WebApi.api_scopes py client_id (WebApi.Lines lines (Some msg))
        = WebApi.ScopesError msg /\
        WebApi.api_scopes py client_id (WebApi.Unreadable msg)
        = WebApi.ScopesError msg).
Proof.
  eexists. split; [reflexivity|].
  split; [apply sorted_set_sorted|].
  split; [apply strictly_sorted_NoDup, sorted_set_sorted|].
  split; [|intros msg; split; reflexivity].
  intros s. rewrite sorted_set_elem, list_elem_of_omap. split.
  - intros (line & Hin & Hline). unfold WebApi.scope_of_line in Hline.
    destruct (split py (strip py line)) as [|scope [|resource [|client rest]]]
      eqn:Hsplit; try discriminate.
    destruct (String.eqb (lower py client) (lower py client_id)) eqn:Heq;
      [|discriminate].
    apply String.eqb_eq in Heq. injection Hline as <-.
    exists line, scope, resource, client, rest. auto.
  - intros (line & scope & resource & client & rest & Hin & Hsplit & Heq & ->).
    exists line. split; [exact Hin|].
    unfold WebApi.scope_of_line. rewrite Hsplit.
    apply String.eqb_eq in Heq. rewrite Heq. reflexivity.
Qed.

Example sorted_set_sample :
  WebApi.sorted_set ["https://b"; ".default"; "https://a"; ".default"]
  = [".default"; "https://a"; "https://b"].
Proof. reflexivity. Qed.

(** ** The menus *)

Lemma combine_seq_elem {A} (page : list A) (n i : nat) (a : A) :
  (i, a) ∈ combine (seq n (length page)) page <->
  exists j, i = (n + j)%nat /\ page !! j = Some a.
Proof.
  revert n. induction page as [|x page IH]; intros n; simpl.
  - rewrite elem_of_nil. split; [contradiction|].
    intros (j & _ & Hj). discriminate.
  - rewrite elem_of_cons, IH. split.
    + intros [[= -> ->]|(j & -> & Hj)].
      * exists 0%nat. split; [lia|reflexivity].
      * exists (S j). split; [lia|exact Hj].
    + intros ([|j] & -> & Hj); simpl in Hj.
      * left. injection Hj as <-. f_equal. lia.
      * right. exists j. split; [lia|exact Hj].
Qed.

(** A page shows the apps from [start_idx] on, at most [page_size] of
    them, each under its position in the results counted from 1. *)
Lemma display_entries (results : list Catalog.app) (start_idx page_size i : nat)
    (a : Catalog.app) :
  (i, a) ∈ Menu.display_search_results results start_idx page_size <->
  (start_idx < i <= start_idx + page_size)%nat /\
  results !! (i - 1)%nat = Some a.
Proof.
  unfold Menu.display_search_results. rewrite combine_seq_elem. split.
  - intros (j & -> & Hj).
    apply lookup_take_Some in Hj as [Hj Hlt]. rewrite lookup_drop in Hj.
    split; [lia|].
    replace (start_idx + 1 + j - 1)%nat with (start_idx + j)%nat by lia.
    exact Hj.
  - intros [Hi Ha]. exists (i - 1 - start_idx)%nat. split; [lia|].
    apply lookup_lt_Some in Ha as Hlen.
    apply lookup_take_Some. split.
    + rewrite lookup_drop.
      replace (start_idx + (i - 1 - start_idx))%nat with (i - 1)%nat by lia.
      exact Ha.
    + lia.
Qed.

Lemma display_length (results : list Catalog.app) (start_idx page_size : nat) :
  length (Menu.display_search_results results start_idx page_size)
  = Nat.min page_size (length results - start_idx).
Proof.
  unfold Menu.display_search_results.
  rewrite length_combine, length_seq, Nat.min_id, length_take, length_drop.
  lia.
Qed.

Lemma pick_in_range (results : list Catalog.app) (idx : Z) :
  Menu.in_range idx results = true ->
  exists a, results !! Z.to_nat idx = Some a /\
            Menu.pick results idx = Menu.Returned (Some a).
Proof.
  unfold Menu.in_range, Menu.pick. rewrite andb_true_iff, Z.leb_le, Z.ltb_lt.
  intros [H0 Hlen].
  destruct (results !! Z.to_nat idx) as [a|] eqn:Ha.
  - exists a. auto.
  - apply lookup_ge_None in Ha. lia.
Qed.

Lemma paginate_ends_well (py : str_methods) (results : list Catalog.app)
    (inputs : list string) :
  forall current_page seen,
    ends_well
      (fun a => exists line v,
           line ∈ inputs /\ to_int py (lower py (strip py line)) = Some v /\
           1 <= v <= Z.of_nat (length results) /\
           results !! Z.to_nat (v - 1) = Some a)
      (fst (Menu.paginate py results current_page inputs seen)).
Proof.
  induction inputs as [|line inputs IH]; intros current_page seen; simpl.
  { exact I. }
  assert (forall page seen',
            ends_well
              (fun a => exists line0 v,
                   line0 ∈ line :: inputs /\
                   to_int py (lower py (strip py line0)) = Some v /\
                   1 <= v <= Z.of_nat (length results) /\
                   results !! Z.to_nat (v - 1) = Some a)
              (fst (Menu.paginate py results page inputs seen'))) as IH'.
  { intros page seen'. specialize (IH page seen').
    destruct (fst (Menu.paginate py results page inputs seen')) as [[a|]| |];
      simpl in *; auto.
    destruct IH as (line0 & v & Hin & Hrest).
    exists line0, v. split; [apply elem_of_cons; auto|exact Hrest]. }
  destruct (String.eqb _ "b"); [exact I|].
  destruct (String.eqb _ "n"); [destruct (_ <? _)%nat; apply IH'|].
  destruct (String.eqb _ "p"); [destruct (_ <? _)%nat; apply IH'|].
  destruct (to_int py (lower py (strip py line))) as [v|] eqn:Hv; [|apply IH'].
  destruct (Menu.in_range (v - 1) results) eqn:Hr; [|apply IH'].
  destruct (pick_in_range results (v - 1) Hr) as (a & Ha & ->). simpl.
  exists line, v. split; [apply list_elem_of_here|]. split; [exact Hv|].
  split; [|exact Ha].
  unfold Menu.in_range in Hr.
  apply andb_true_iff in Hr as [H0 Hlen].
  apply Z.leb_le in H0. apply Z.ltb_lt in Hlen. lia.
Qed.


Lemma ends_well_impl (P Q : Catalog.app -> Prop)
    (o : Menu.outcome (option Catalog.app)) :
  (forall a, P a -> Q a) -> ends_well P o -> ends_well Q o.
Proof. intros HPQ. destruct o as [[a|]| |]; simpl; auto. Qed.

Lemma ends_well_split (P : Catalog.app -> Prop)
    (o : Menu.outcome (option Catalog.app)) :
  ends_well P o <->
  o <> Menu.IndexError /\ forall a, o = Menu.Returned (Some a) -> P a.
Proof.
  destruct o as [[a|]| |]; simpl; split.
  - intros HP. split; [discriminate|]. intros a' [= <-]. exact HP.
  - intros [_ HP]. apply HP. reflexivity.
  - intros _. split; [discriminate|]. intros a' [=].
  - auto.
  - intros _. split; [discriminate|]. intros a' [=].
  - auto.
  - contradiction.
  - intros [Hn _]. apply Hn. reflexivity.
Qed.

(** X18. The paginated selection never indexes outside the results, and
    an app it returns is the one at position [v] of the results, counted
    from 1, for a number [v] read from one of the lines typed. *)
Theorem paginated_selection_picks (py : str_methods)
    (results : list Catalog.app) (inputs : list string)
    (seen : list Menu.screen) :
  let out := fst (Menu.paginated_selection py results inputs seen) in
  out <> Menu.IndexError /\
  forall a, out = Menu.Returned (Some a) ->
    exists line v,
      line ∈ inputs /\ to_int py (lower py (strip py line)) = Some v /\
      1 <= v <= Z.of_nat (length results) /\
      results !! Z.to_nat (v - 1) = Some a.
Proof.
  intros out. subst out. apply ends_well_split.
  apply paginate_ends_well.
Qed.

Lemma paginated_selection_picks_witness :
  exists line v,
    line ∈ ["n"; "2"] /\ to_int plain (lower plain (strip plain line)) = Some v /\
    1 <= v <= Z.of_nat (length Catalog.TOP_APPS) /\
    Catalog.TOP_APPS !! Z.to_nat (v - 1)
    = Some (Catalog.App "Microsoft Teams"
              "1fec8e78-bce4-4aaf-ab1b-5451cc387264" DEFAULT_SCOPE).
Proof.
  destruct (paginated_selection_picks plain Catalog.TOP_APPS ["n"; "2"] [])
    as [_ Hpick].
  apply Hpick. reflexivity.
Defined.


Lemma paginate_screens (py : str_methods) (results : list Catalog.app)
    (inputs : list string) :
  forall current_page seen,
    (current_page * 10 < length results)%nat ->
    Forall (fit_page results) seen ->
    Forall (fit_page results)
      (Menu.shown (snd (Menu.paginate py results current_page inputs seen))).
Proof.
  induction inputs as [|line inputs IH]; intros current_page seen Hpage Hseen.
  all: assert (Forall (fit_page results)
                 (seen ++ [Menu.display_search_results results
                             (current_page * 10) 10])) as Hseen'.
  1,3: apply Forall_app; split; [exact Hseen|];
       apply Forall_cons; split; [|constructor];
       split; [rewrite display_length; lia|];
       intros i a Hia; apply display_entries in Hia as [Hi Ha];
       split; [lia|exact Ha].
  - simpl. exact Hseen'.
  - simpl.
    destruct (String.eqb _ "b"); [exact Hseen'|].
    destruct (String.eqb _ "n").
    { destruct ((current_page + 1) * 10 <? length results)%nat eqn:Hn.
      - apply Nat.ltb_lt in Hn. apply IH; assumption.
      - apply IH; assumption. }
    destruct (String.eqb _ "p").
    { destruct (0 <? current_page)%nat eqn:Hp.
      - apply Nat.ltb_lt in Hp. apply IH; [lia|assumption].
      - apply IH; assumption. }
    destruct (to_int py (lower py (strip py line))) as [v|];
      [|apply IH; assumption].
    destruct (Menu.in_range (v - 1) results); [exact Hseen'|].
    apply IH; assumption.
Qed.

(** X19. Whatever is typed, every page the paginated selection displays
    for a non-empty list of results is fit to be shown: it is never
    empty, even after "n" on the last page or "p" on the first, it has at
    most ten entries, and each app stands under its position in the
    results counted from 1. *)
Theorem paginated_selection_pages (py : str_methods)
    (results : list Catalog.app) (inputs : list string) :
  results <> [] ->
  Forall (fit_page results)
    (Menu.shown (snd (Menu.paginated_selection py results inputs []))).
Proof.
  intros Hne. apply paginate_screens; [|constructor].
  destruct results; [contradiction|]. simpl. lia.
Qed.

Lemma paginated_selection_pages_witness :
  Forall (fit_page Catalog.TOP_APPS)
    (Menu.shown (snd (Menu.paginated_selection plain Catalog.TOP_APPS
                        ["n"; "p"; "x"; "2"] []))).
Proof.
  apply (paginated_selection_pages plain Catalog.TOP_APPS
           ["n"; "p"; "x"; "2"]).
  discriminate.
Defined.

(** X20. The number printed before an app on a page selects that app:
    typing it, on whatever page the selection stands, returns the app and
    reads no further line. *)
Theorem printed_number_selects (py : str_methods)
    (results : list Catalog.app) (start_idx page_size i : nat)
    (a : Catalog.app) (line : string) (inputs : list string)
    (current_page : nat) (seen : list Menu.screen) :
  let choice := lower py (strip py line) in
  (i, a) ∈ Menu.display_search_results results start_idx page_size ->
  choice <> "b" -> choice <> "n" -> choice <> "p" ->
  to_int py choice = Some (Z.of_nat i) ->
  Menu.paginate py results current_page (line :: inputs) seen
  = (Menu.Returned (Some a),
     Menu.IO inputs
       (seen ++ [Menu.display_search_results results (current_page * 10) 10])).
Proof.
  intros choice Hia Hb Hn Hp Hint. subst choice.
  apply display_entries in Hia as [Hi Ha].
  apply String.eqb_neq in Hb, Hn, Hp.
  simpl. rewrite Hb, Hn, Hp, Hint.
  apply lookup_lt_Some in Ha as Hlen.
  assert (Menu.in_range (Z.of_nat i - 1) results = true) as Hr.
  { unfold Menu.in_range. apply andb_true_iff.
    rewrite Z.leb_le, Z.ltb_lt. lia. }
  rewrite Hr. unfold Menu.pick.
  replace (Z.to_nat (Z.of_nat i - 1)) with (i - 1)%nat by lia.
  rewrite Ha. reflexivity.
Qed.

Lemma printed_number_selects_witness :
  Menu.paginate plain Catalog.TOP_APPS 0 ["3"; "n"] []
  = (Menu.Returned
       (Some (Catalog.App "Microsoft Outlook"
                "5d661950-3475-41cd-a2c3-d671a3162bc1" DEFAULT_SCOPE)),
     Menu.IO ["n"] [Menu.display_search_results Catalog.TOP_APPS 0 10]).
Proof.
  apply (printed_number_selects plain Catalog.TOP_APPS 0 10 3
           (Catalog.App "Microsoft Outlook"
              "5d661950-3475-41cd-a2c3-d671a3162bc1" DEFAULT_SCOPE)
           "3" ["n"] 0 []); try discriminate; try reflexivity.
  apply display_entries. split; [lia|reflexivity].
Defined.

Lemma search_loop_ends_well (py : str_methods) (all_apps : list Catalog.app)
    (inputs : list string) :
  forall seen,
    ends_well
      (fun a => a ∈ all_apps /\
                exists line, line ∈ inputs /\
                  contains (lower py (strip py line))
                    (lower py (Catalog.name a)) = true)
      (fst (Menu.search_loop py all_apps inputs seen)).
Proof.
  induction inputs as [|line inputs IH]; intros seen; simpl; [exact I|].
  assert (forall seen',
            ends_well
              (fun a => a ∈ all_apps /\
                        exists line0, line0 ∈ line :: inputs /\
                          contains (lower py (strip py line0))
                            (lower py (Catalog.name a)) = true)
              (fst (Menu.search_loop py all_apps inputs seen'))) as IH'.
  { intros seen'. eapply ends_well_impl; [|apply IH].
    intros a [Ha (line0 & Hin & Hc)]. split; [exact Ha|].
    exists line0. split; [apply elem_of_cons; auto|exact Hc]. }
  destruct (String.eqb _ "b"); [exact I|].
  destruct (negb (nonempty (strip py line))); [apply IH'|].
  destruct (Catalog.search_apps py all_apps (strip py line)) as [|r results]
    eqn:Hres; [apply IH'|].
  unfold Menu.paginated_selection.
  eapply ends_well_impl; [|apply paginate_ends_well].
  intros a (_ & v & _ & _ & _ & Ha). simpl in Ha.
  apply list_elem_of_lookup_2 in Ha. rewrite <- Hres in Ha.
  apply search_apps_spec in Ha as [Hin Hc]. split; [exact Hin|].
  exists line. split; [apply list_elem_of_here|exact Hc].
Qed.

(** X21. The search menu never indexes outside its results, and an app
    it returns is an app of the catalogue it was given whose lowered name
    contains the lowered text of one of the lines typed. *)
Theorem search_and_select_app_picks (py : str_methods)
    (all_apps : list Catalog.app) (inputs : list string)
    (seen : list Menu.screen) :
  let out := fst (Menu.search_and_select_app py all_apps inputs seen) in
  out <> Menu.IndexError /\
  forall a, out = Menu.Returned (Some a) ->
    a ∈ all_apps /\
    exists line, line ∈ inputs /\
      contains (lower py (strip py line)) (lower py (Catalog.name a)) = true.
Proof.
  intros out. subst out. apply ends_well_split.
  unfold Menu.search_and_select_app.
  destruct all_apps as [|a0 apps]; [exact I|].
  apply search_loop_ends_well.
Qed.

Lemma search_and_select_app_picks_witness :
  let apps := [Catalog.App "teams" "id-1" DEFAULT_SCOPE;
               Catalog.App "my graph" "id-2" DEFAULT_SCOPE] in
  let a := Catalog.App "my graph" "id-2" DEFAULT_SCOPE in
  a ∈ apps /\
  exists line, line ∈ [""; "graph"; "1"] /\
    contains (lower plain (strip plain line)) (lower plain (Catalog.name a))
    = true.
Proof.
  destruct (search_and_select_app_picks plain
              [Catalog.App "teams" "id-1" DEFAULT_SCOPE;
               Catalog.App "my graph" "id-2" DEFAULT_SCOPE]
              [""; "graph"; "1"] []) as [_ Hpick].
  apply Hpick. reflexivity.
Defined.


Lemma select_from_top_apps_ends_well (py : str_methods)
    (inputs : list string) :
  forall seen,
    ends_well (fun a => a ∈ Catalog.TOP_APPS)
      (fst (Menu.select_from_top_apps py inputs seen)).
Proof.
  induction inputs as [|line inputs IH]; intros seen; simpl; [exact I|].
  destruct (String.eqb _ "b"); [exact I|].
  destruct (to_int py (strip py line)) as [v|]; [|apply IH].
  destruct (Menu.in_range (v - 1) Catalog.TOP_APPS) eqn:Hr; [|apply IH].
  destruct (pick_in_range Catalog.TOP_APPS (v - 1) Hr) as (a & Ha & ->).
  simpl. apply list_elem_of_lookup_2 in Ha. exact Ha.
Qed.

(** X22. The menu of the top applications returns nothing but one of the
    four applications of [TOP_APPS], and never indexes outside that
    list, whatever number is typed. *)
Theorem select_from_top_apps_picks (py : str_methods) (inputs : list string)
    (seen : list Menu.screen) :
  let out := fst (Menu.select_from_top_apps py inputs seen) in
  out <> Menu.IndexError /\
  forall a, out = Menu.Returned (Some a) -> a ∈ Catalog.TOP_APPS.
Proof.
  intros out. subst out. apply ends_well_split.
  apply select_from_top_apps_ends_well.
Qed.

Lemma select_from_top_apps_picks_witness :
  Catalog.App "Microsoft Azure CLI" "04b07795-8ddb-461a-bbee-02f9e1bf7b46"
    DEFAULT_SCOPE ∈ Catalog.TOP_APPS.
Proof.
  destruct (select_from_top_apps_picks plain ["x"; "7"; "1"] []) as [_ Hpick].
  apply Hpick. reflexivity.
Defined.


Lemma top_apps_usable (a : Catalog.app) :
  a ∈ Catalog.TOP_APPS -> Catalog.client_id a <> "" /\ Catalog.scope a <> "".
Proof.
  unfold Catalog.TOP_APPS. rewrite !elem_of_cons, elem_of_nil.
  intros [->|[->|[->|[->|[]]]]]; split; discriminate.
Qed.

Lemma get_custom_client_id_ends_well (py : str_methods)
    (inputs : list string) (seen : list Menu.screen) :
  ends_well (fun a => Catalog.client_id a <> "" /\ Catalog.scope a <> "")
    (fst (Menu.get_custom_client_id py inputs seen)).
Proof.
  unfold Menu.get_custom_client_id.
  destruct inputs as [|line [|line2 inputs]]; simpl; try exact I.
  - destruct (nonempty (strip py line)); exact I.
  - destruct (nonempty (strip py line)) eqn:Hid; simpl; [|exact I].
    apply nonempty_true in Hid. split; [exact Hid|].
    destruct (nonempty (strip py line2)) eqn:Hsc; simpl.
    + apply nonempty_true, Hsc.
    + discriminate.
Qed.

Lemma interactive_ends_well (py : str_methods) (src : Catalog.csv_source)
    (inputs : list string) :
  ends_well (fun a => Catalog.client_id a <> "" /\ Catalog.scope a <> "")
    (fst (Menu.interactive_app_selection py src inputs)).
Proof.
  unfold Menu.interactive_app_selection.
  generalize (@nil Menu.screen) as seen.
  induction inputs as [|line inputs IH]; intros seen; simpl; [exact I|].
  destruct (String.eqb _ "q"); [exact I|].
  destruct (String.eqb _ "1").
  { eapply ends_well_impl; [|apply select_from_top_apps_ends_well].
    apply top_apps_usable. }
  destruct (String.eqb _ "2").
  { unfold Menu.search_and_select_app.
    destruct (Catalog.load_microsoft_apps src) as [|a0 apps] eqn:Hload;
      [exact I|].
    eapply ends_well_impl; [|apply search_loop_ends_well].
    intros a [Ha _]. rewrite <- Hload in Ha.
    apply loaded_from_row in Ha as (rows & broke & row & _ & _ & Hl).
    apply load_row_some in Hl as (_ & _ & Hid & _ & Hscope).
    apply nonempty_true in Hid. split; [exact Hid|].
    rewrite Hscope. discriminate. }
  destruct (String.eqb _ "3"); [apply get_custom_client_id_ends_well|].
  apply IH.
Qed.


(** X23. Whatever is typed and whatever the catalogue file holds, the
    application selection of the command-line program never ends on an
    index error, and an application it returns, from the top four, from a
    search of the catalogue or typed in by hand, has a client id and a
    scope that are not empty. *)
Theorem interactive_app_selection_picks (py : str_methods)
    (src : Catalog.csv_source) (inputs : list string) :
  let out := fst (Menu.interactive_app_selection py src inputs) in
  out <> Menu.IndexError /\
  forall a, out = Menu.Returned (Some a) ->
    Catalog.client_id a <> "" /\ Catalog.scope a <> "".
Proof.
  intros out. subst out. apply ends_well_split, interactive_ends_well.
Qed.

Lemma interactive_app_selection_picks_witness :
  let a := Catalog.App "Custom App (my-clien...)" "my-client-id"
             DEFAULT_SCOPE in
  Catalog.client_id a <> "" /\ Catalog.scope a <> "".
Proof.
  destruct (interactive_app_selection_picks plain Catalog.Missing
              ["3"; "my-client-id"; ""]) as [_ Hpick].
  apply Hpick. reflexivity.
Defined.


(** A run of the menus: an unknown choice, then the search, a query
    without match, a query with two matches, and the second of them. *)
Example interactive_search_run :
  Menu.interactive_app_selection plain
    (Catalog.Read [[("AppId", "id-1"); ("AppDisplayName", "graph one")];
                   [("AppId", ""); ("AppDisplayName", "graph none")];
                   [("AppId", "id-2"); ("AppDisplayName", "my graph two")]]
       false)
    ["x"; "2"; "teams"; "graph"; "2"; "left"]
  = (Menu.Returned (Some (Catalog.App "my graph two" "id-2" DEFAULT_SCOPE)),
     Menu.IO ["left"]
       [[(1%nat, Catalog.App "graph one" "id-1" DEFAULT_SCOPE);
         (2%nat, Catalog.App "my graph two" "id-2" DEFAULT_SCOPE)]]).
Proof. reflexivity. Qed.


(** ** The command-line program *)

(** The blocking loop sends token requests only, all alike, at most one
    per attempt, and leaves the session file alone. *)
Lemma cli_poll_log (e : env) (c d i : json) (fuel : nat) :
  forall s,
    let s' := snd (Cli.poll_for_token fuel e c d i s) in
    session_file (the_world s') = session_file (the_world s) /\
    exists k, (k <= fuel)%nat /\
      net_log (the_world s')
      = (net_log (the_world s) ++ repeat (token_request c d) k)%list.
Proof.
  induction fuel as [|fuel IH]; intros s; cbv zeta.
  { simpl. split; [reflexivity|]. exists 0%nat. split; [lia|].
    simpl. rewrite app_nil_r. reflexivity. }
  assert (session_file (the_world (posted (token_request c d) s))
          = session_file (the_world s) /\
          exists k, (k <= S fuel)%nat /\
            net_log (the_world (posted (token_request c d) s))
            = (net_log (the_world s) ++ repeat (token_request c d) k)%list)
    as Hone.
  { split; [reflexivity|]. exists 1%nat. split; [lia|reflexivity]. }
  rewrite cli_poll_unfold. cbv zeta.
  destruct (provider e (net_log (the_world s)) (token_request c d))
    as [r|msg]; [|exact Hone].
  destruct (status_code r =? 200); [destruct (parsed r); exact Hone|].
  destruct (status_code r =? 400); [|exact Hone].
  destruct (parsed r) as [j|]; [|exact Hone].
  destruct (py_get j "error") as [err|ex]; [|exact Hone].
  destruct (in_pending_errors err); [|exact Hone].
  unfold mbind, M_bind, bind.
  pose proof (time_sleep_net_log i (posted (token_request c d) s)) as Hlog.
  assert (session_file (the_world (snd (time_sleep i
                                          (posted (token_request c d) s))))
          = session_file (the_world s)) as Hfile.
  { destruct i as [|b|q| | |]; simpl; try reflexivity.
    destruct (sleep_fits _ q); [destruct (py_gt 0 q)|]; reflexivity. }
  destruct (time_sleep i (posted (token_request c d) s)) as [[[]|ex] s1].
  - simpl in Hlog, Hfile. specialize (IH s1). cbv zeta in IH.
    destruct IH as [IHfile (k & Hk & IHlog)].
    split; [congruence|]. exists (S k). split; [lia|].
    rewrite IHlog, Hlog. simpl. rewrite <- app_assoc. reflexivity.
  - simpl in *. split; [exact Hfile|]. exists 1%nat. split; [lia|].
    exact Hlog.
Qed.

(** X24. The command-line program sends nothing before an application is
    selected; what it then sends is one device-code request with the
    client id and the scope of that application, neither of them empty,
    followed by token requests only, all with that client id and one
    device code; and it never writes the session file. *)
Theorem main_requests (fuel : nat) (py : str_methods)
    (src : Catalog.csv_source) (e : env) (inputs : list string) (w : world) :
  let w' := snd (CliMain.main fuel py src e inputs w) in
  session_file w' = session_file w /\
  (net_log w' = net_log w \/
   exists a dc k,
     fst (Menu.interactive_app_selection py src inputs)
     = Menu.Returned (Some a) /\
     Catalog.client_id a <> "" /\ Catalog.scope a <> "" /\
     net_log w'
     = (net_log w
          ++ device_code_request (JStr (Catalog.client_id a))
               (JStr (Catalog.scope a))
          :: repeat (token_request (JStr (Catalog.client_id a)) dc) k)%list).
Proof.
  intros w'. subst w'. unfold CliMain.main.
  pose proof (interactive_ends_well py src inputs) as Hpick.
  destruct (Menu.interactive_app_selection py src inputs) as [[[a|]| |] io];
    simpl in *; auto.
  destruct Hpick as [Hid Hscope].
  set (q := device_code_request (JStr (Catalog.client_id a))
              (JStr (Catalog.scope a))).
  unfold Cli.get_device_code. munfold. simpl. fold q.
  destruct (provider e (net_log w) q) as [r|msg]; simpl; [|solve [sent a]].
  destruct ((400 <=? status_code r) && (status_code r <? 600)); simpl;
    [solve [sent a]|].
  destruct (parsed r) as [device|]; simpl; [|solve [sent a]].
  destruct (CliMain.show_instructions device); simpl; [|solve [sent a]].
  destruct (Menu.unread io) as [|enter rest]; simpl; [solve [sent a]|].
  unfold CliMain.poll_phase.
  destruct (py_index device "device_code") as [dc|ex]; simpl;
    [|solve [sent a]].
  destruct (py_get_default device "interval" (JNum 5)) as [iv|ex]; simpl;
    [|solve [sent a]].
  pose proof (cli_poll_log e (JStr (Catalog.client_id a)) dc iv fuel
                (State (log_request q w) ∅)) as Hlog.
  cbv zeta in Hlog. destruct Hlog as [Hfile (k & _ & Hlog)].
  destruct (Cli.poll_for_token fuel e (JStr (Catalog.client_id a)) dc iv
              (State (log_request q w) ∅)) as [[[token|]|ex] s'];
    simpl in *; (split; [exact Hfile|]); right; exists a, dc, k;
    rewrite Hlog, <- app_assoc; auto.
Qed.

(** X25. A whole run of the command-line program.  When an application
    was selected and one more line is typed to confirm, the provider
    grants a device code with the three display fields and an interval
    that is not negative and that the machine's [time.sleep] takes,
    answers a waiting error to the first [n] redemption attempts and 200
    with a JSON object holding an [access_token] to the next, the program
    ends by printing
    that access token, with "<none>" for a refresh or id token the
    provider left out, after the device-code request, [n + 1] token
    requests and [n] sleeps of the granted interval. *)
Theorem main_prints_tokens (fuel n : nat) (py : str_methods)
    (src : Catalog.csv_source) (e : env) (inputs rest : list string)
    (enter : string) (seen : list Menu.screen) (w : world)
    (a : Catalog.app) (r rt : response) (dev tok : list (string * json))
    (dc vu uc msg at_ : json) (iv : Q) :
  let q := device_code_request (JStr (Catalog.client_id a))
             (JStr (Catalog.scope a)) in
  let t := token_request (JStr (Catalog.client_id a)) dc in
  Menu.interactive_app_selection py src inputs
  = (Menu.Returned (Some a), Menu.IO (enter :: rest) seen) ->
  provider e (net_log w) q = Sent r ->
  ~ is_4xx_5xx r ->
  parsed r = Some (JObj dev) ->
  dict_get "verification_uri" dev = Some vu ->
  dict_get "user_code" dev = Some uc ->
  dict_get "message" dev = Some msg ->
  dict_get "device_code" dev = Some dc ->
  default (JNum 5) (dict_get "interval" dev) = JNum iv ->
  (0 <= iv)%Q ->
  sleep_fits (the_machine w) iv = true ->
  (forall i, (i < n)%nat ->
     waiting (provider e (net_log w ++ q :: repeat t i) t)) ->
  provider e (net_log w ++ q :: repeat t n) t = Sent rt ->
  status_code rt = 200 ->
  parsed rt = Some (JObj tok) ->
  dict_get "access_token" tok = Some at_ ->
  (n < fuel)%nat ->
  CliMain.main fuel py src e inputs w
  = (CliMain.TokensShown at_
       (default (JStr "<none>") (dict_get "refresh_token" tok))
       (default (JStr "<none>") (dict_get "id_token" tok)),
     Menu.IO rest seen,
     World (session_file w) (net_log w ++ q :: repeat t (S n))
       (slept w ++ repeat iv n) (the_machine w)).
Proof.
  intros q t Hsel Hp Hs Hj Hvu Huc Hmsg Hdc Hiv Hpos Hfit Hwait Hpt Hct Hjt
    Hat Hfuel.
  apply not_4xx_5xx in Hs. apply py_gt_false in Hpos.
  unfold CliMain.main. rewrite Hsel.
  unfold Cli.get_device_code. munfold. simpl. fold q.
  rewrite Hp. simpl. rewrite Hs. simpl. rewrite Hj. simpl.
  unfold CliMain.show_instructions. simpl. rewrite Hvu, Huc, Hmsg.
  unfold CliMain.poll_phase. simpl. rewrite Hdc. rewrite Hiv.
  fold t.
  rewrite (cli_poll_waits e (JStr (Catalog.client_id a)) dc iv rt (JObj tok)
             n Hpos Hct Hjt fuel (State (log_request q w) ∅)).
  - unfold CliMain.show_tokens. simpl. rewrite Hat. fold t.
    rewrite <- app_assoc. reflexivity.
  - exact Hfit.
  - intros i Hi. simpl. rewrite <- app_assoc. apply Hwait, Hi.
  - simpl. rewrite <- app_assoc. exact Hpt.
  - exact Hfuel.
Qed.

Lemma main_prints_tokens_witness :
  CliMain.main 5 plain Catalog.Missing (Sample.flow 0) ["1"; "2"; ""; "x"]
    Sample.empty_world
  = (CliMain.TokensShown (JStr "tok") (JStr "<none>") (JStr "<none>"),
     Menu.IO ["x"] [],
     World None
       (device_code_request (JStr "1fec8e78-bce4-4aaf-ab1b-5451cc387264")
          (JStr DEFAULT_SCOPE)
        :: repeat (token_request
                     (JStr "1fec8e78-bce4-4aaf-ab1b-5451cc387264")
                     (JStr "d1")) 2)
       (repeat 5%Q 1) (the_machine Sample.empty_world)).
Proof.
  apply (main_prints_tokens 5 1 plain Catalog.Missing (Sample.flow 0)
           ["1"; "2"; ""; "x"] ["x"] "" [] Sample.empty_world
           (Catalog.App "Microsoft Teams"
              "1fec8e78-bce4-4aaf-ab1b-5451cc387264" DEFAULT_SCOPE)
           Sample.grant_reply Sample.token_reply
           [("device_code", JStr "d1"); ("user_code", JStr "U1");
            ("verification_uri", JStr "https://x");
            ("message", JStr "enter U1"); ("interval", JNum 5);
            ("expires_in", JNum 900)]
           [("access_token", JStr "tok")]
           (JStr "d1") (JStr "https://x") (JStr "U1") (JStr "enter U1")
           (JStr "tok") 5%Q); try reflexivity; try lia; try discriminate.
  - unfold is_4xx_5xx. simpl. lia.
  - intros i Hi.
    exists Sample.pending_reply, [("error", JStr "authorization_pending")],
      (JStr "authorization_pending").
    destruct i as [|i]; [|lia]. repeat split; reflexivity.
Defined.

(** X26. The launcher skips every line that is none of its three
    choices, starts one program at most, the command-line one on "1" and
    the web one on "2", none on "3", and reads nothing after that
    choice; when the input ends before any choice it has started
    nothing. *)
Theorem launcher_first_choice (py : str_methods) (skipped : list string) :
  Forall (no_choice py) skipped ->
  (forall line rest,
      strip py line = "1" \/ strip py line = "2" \/ strip py line = "3" ->
      Run.main py (skipped ++ line :: rest)
      = (started (strip py line), false, rest)) /\
  Run.main py skipped = ([], true, []) /\
  (forall inputs, (length (Run.main py inputs).1.1 <= 1)%nat).
Proof.
  intros Hskip. split; [|split].
  - intros line rest Hline.
    induction Hskip as [|l skipped [H1 [H2 H3]] _ IH]; simpl.
    + unfold started.
      destruct Hline as [-> | [-> | ->]]; reflexivity.
    + apply String.eqb_neq in H1, H2, H3. rewrite H1, H2, H3. exact IH.
  - induction Hskip as [|l skipped [H1 [H2 H3]] _ IH]; simpl; [reflexivity|].
    apply String.eqb_neq in H1, H2, H3. rewrite H1, H2, H3. exact IH.
  - intros inputs. induction inputs as [|l inputs IH]; simpl; [lia|].
    destruct (String.eqb _ "1"); [simpl; lia|].
    destruct (String.eqb _ "2"); [simpl; lia|].
    destruct (String.eqb _ "3"); [simpl; lia|]. exact IH.
Qed.

Lemma launcher_first_choice_witness :
  Run.main plain (["x"; ""] ++ "2" :: ["1"])
  = ([Run.web_app_py], false, ["1"]).
Proof.
  destruct (launcher_first_choice plain ["x"; ""]) as [Hfirst _].
  - repeat constructor; discriminate.
  - apply (Hfirst "2" ["1"]). right. left. reflexivity.
Defined.
